(* ===== verification/_CoqProject ===== *)
-Q . S2P
Prelude.v
Point.v
Line.v
Rectangle.v
Square.v
Shape.v
Restaurant.v
PyFormat.v
Receipt.v
