(* ===== verification/Prelude.v ===== *)
(** * A verification development of the Reto-3 repository

    The repository holds two Python scripts.

    - [src/classLine.py], the geometry core: four classes, each built
      from the previous ones by composition or inheritance.
      - [Point] (lines 3-10) stores two float coordinates.
      - [Line] (lines 13-55) stores two points, [start] and [end].
        It computes its length, its slope in degrees, its crossings with
        the two axes and a discretisation into [n] points.
      - [Rectangle] (lines 58-105) is built from four lines (bottom,
        right, top, left). Its constructor reads the corners, width,
        height and centre off lines 1 and 3. The class method
        [from_corners] builds the four lines from two opposite corners.
        Area, perimeter and point containment read the stored fields.
      - [Square] (lines 108-133) inherits from [Rectangle]. Its constructor
        builds the four lines from a bottom-left corner and a side length,
        then calls [Rectangle.__init__]. The class methods
        [from_center] and [from_corners] compute a corner and a side and
        call that constructor.
    - [src/RestaurantScenario.py], an order-pricing script: menu items
      with per-kind discounts, an order that sums them and applies a 5%
      discount above 100, and two sample orders.

    ** Files

    - [Prelude.v] (this file): the Python runtime behaviour the models
      share. Python's [/] on floats raises [ZeroDivisionError] on a zero
      divisor, so a computation that divides returns a [result]: [Ok v],
      or [Raise e] with the exception. [let? x := c in k] threads the
      exception, like a Python statement sequence. Also here: the
      comparisons [<], [<=] as booleans, the builtins [min], [max] and
      [range], their lemmas, the hint databases [pyreal] (rewriting) and
      [geo] (resolution), the tactic [rdecide], and the sortedness of a
      list built over [range].
    - [Point.v]: the record [Point] and its textual representation.
    - [Line.v]: the record [Line] and its five methods
      ([compute_length], [compute_slope], [compute_horizontal_cross],
      [compute_vertical_cross], [discretize_line]).
    - [Rectangle.v], [Module Rectangle]: the record of the fields that
      [Rectangle.__init__] sets, [init] (the constructor),
      [from_corners_cls] (the class method, over the constructor [cls]
      of the class it is called on) and [from_corners] (called on
      [Rectangle]), [compute_area], [compute_perimeter] and
      [contains_point]. It also holds an abstract specification, an
      axis-aligned box, and the refinement theorems that relate the two.
      The class [RectangleCtor] is the interface between the constructor
      and the class method: what a constructor promises (its four lines;
      on well-formed lines, the box of the lines). [init] is an instance,
      and the refinement of [from_corners_cls] is proved for any
      instance.
    - [Square.v], [Module Square]: [init] (the constructor, which ends in
      [Rectangle.init]), and the class methods [from_center_cls] and
      [from_corners_cls] over [cls], with [from_center] and
      [from_corners] called on [Square]. A square is a
      [Rectangle.Rectangle]: the subclass adds no field and inherits
      area, perimeter and containment.
    - [Shape.v], [Module Shape]: the class of a shape object as data
      ([RectangleObj] or [SquareObj] over the same record), one
      constructor per way the program builds an object (the class
      methods called with the class's constructor as [cls]), method
      lookup (inherited [compute_area], [compute_perimeter],
      [contains_point]; the overriding [__repr__]). Definitions only.
    - [Restaurant.v], [Module Restaurant]: the menu-item classes as one
      inductive type [Item] (a constructor per class, carrying the base
      record [MenuItem] and the subclass's flag), [total_price] with the
      overrides, [Order] with [add_item] and [calculate_total], and the
      two orders the script builds ([script_order], [main_order]). A
      customer adding items one after another is [fold_left add_item];
      [reachable] is the order as a state machine.
    - [PyFormat.v]: Python's [str] of an int and [f"{v:.2f}"] of a price
      (round to the nearest hundredth, ties to even), the runtime's
      printing the receipts use.
    - [Receipt.v], [Module Receipt]: the [__repr__] of each menu-item
      class, [Order.show_order] as the list of lines it prints, and the
      output of running the script ([run_as_main]). Definitions only.

    Files depend on each other in the order above, as the classes do:
    [Line] calls [Point]'s fields, [Rectangle.init] calls
    [compute_length], [Square.init] calls [Rectangle.init], [Shape.v]
    dispatches to [Rectangle.v] and [Square.v]. [Restaurant.v] is
    independent of the geometry; [Receipt.v] prints its orders with
    [PyFormat.v].

    ** Modelling choices

    - Python floats are modelled as the real numbers of the Standard
      Library in the geometry, and as exact rationals ([Q]) in the
      restaurant: no rounding, no overflow, no NaN. The theorems claimed
      are those whose conclusion rounding cannot overturn: equalities of
      values computed the same way on both sides (symmetries, the
      reversed line, [from_corners] of other corners), exact
      characterisations of the guards ([None], [ZeroDivisionError]),
      and non-strict bounds. Where one rounding of the last bit flips a
      comparison, the reals model and the program disagree, and the
      development claims nothing (see the last three findings).
    - Python ints ([n] of [discretize_line], [range]) are [Z].
    - [x ** 2] is [x ^ 2]. [x ** 0.5] with [x >= 0] is [sqrt x].
      [math.atan] is [atan]. [math.degrees r] is [r * (180 / PI)].
    - Every division whose divisor is not a nonzero literal is [py_div],
      which raises [ZeroDivisionError]. Divisions by the literal [2] are
      plain [/].
    - [min] and [max] of two floats are [py_min] and [py_max], written as
      CPython's builtins compare: [min(a, b)] is [b if b < a else a].
    - Points are values. The code never mutates a point after building
      it, so sharing a [Point] between lines (as [Rectangle.from_corners]
      does) is observably the same as copying it.
    - A method that reads fields and cannot fail is a plain function.
      Constructors are functions from their arguments to the record of
      the fields they set; a list the code appends to ([Order.items]) is
      threaded through [add_item]. A class method takes the constructor
      of the class it is called on ([cls]) as an argument.
    - In [Restaurant.v] the threshold test [total > 100] is
      [negb (Qle_bool total 100)]. Equalities of prices are [Qeq]
      ([==]); [discount] is [Proper] for it. [:.2f] rounds the exact
      rational; CPython rounds the float nearest to it, which gives the
      same two decimals on the script's prices.
    - No fuel is needed: every loop of the code is a [map] or a
      [fold_left] over a finite list ([range n], [items]). The one
      unbounded behaviour, a customer who keeps ordering, is an infinite
      sequence of items [f : nat -> Item] whose finite prefixes are
      added; its liveness theorem quantifies over every prefix.

    ** What the theorems show

    Line (in [Line.v]):
    - length: nonnegative, zero exactly on degenerate lines;
    - slope: never raises, [None] exactly on vertical lines, and blind
      to the direction of the line;
    - axis crossings: [None] exactly when the code's guards say so
      (vertical, or both ends strictly on one side of the axis); they
      raise [ZeroDivisionError] exactly on the lines the theorems name
      (a horizontal line on the x axis, or crossing the y axis); the
      value returned differs from the real intercept;
    - discretisation: never raises; [n] points for [n >= 2], the two
      endpoints otherwise; first point [start], last point [end]; every
      point on the segment, evenly spaced, strictly in order along the
      line; the reversed line gives the reversed points.

    Rectangle and Square (in [Rectangle.v], [Square.v]):
    - [from_corners] builds a closed axis-aligned rectangle, the same one
      whatever the order or the diagonal of the corners, and refines the
      abstract box of the corners for corners, width, centre and
      containment, for every class whose constructor keeps the promises
      of [RectangleCtor];
    - the height is read off the top line, so it equals the width: area
      and perimeter are right exactly for squares (and zero width);
    - a square of nonnegative side is the rectangle [from_corners] of its
      diagonal; its width and height are both the absolute side, so a
      negative side gives an empty square; [from_center] centres it on
      the given point; [from_corners] takes the smaller side and does
      not depend on the order or the diagonal of its corners.

    Restaurant (in [Restaurant.v]):
    - the total lies between 95% of the items' totals and their sum; the
      beverage discount starts at five drinks;
    - the order as a state machine ([reachable]: [Order()] then
      [add_item] of items with nonnegative price and quantity): by rule
      induction, every reachable order is charged between 80.75% of its
      list price and the list price;
    - adding an item can lower the bill (the discount threshold), by at
      most 5, and 5 is the least such bound;
    - liveness: a customer who keeps adding items of at least some
      price [eps > 0] reaches, and then never leaves, orders above 100
      charged 95% of their sum.

    ** Findings

    - [Rectangle.__init__] measures the height on line 3 (the top edge),
      so every rectangle's height is its width ([init_height_is_width]).
    - Both axis crossings raise [ZeroDivisionError] on horizontal lines
      that reach the axis ([compute_horizontal_cross_raises],
      [compute_vertical_cross_raises]); the spec says nothing raises.
    - The crossing formula divides by degrees where the intercept needs a
      ratio ([compute_horizontal_cross_not_intercept]).
    - A negative side makes an empty square ([init_negative_side_empty]).
    - The 5% discount makes the bill non-monotone
      ([calculate_total_not_monotone]).
    - Running the script prints the module-level order's summary (total
      $152.38) before the seven lines its closing comment shows:
      [run_as_main] evaluates to nineteen lines.
    - Float rounding (outside the model, observed on the program):
      the bill depends on the order the items were added (a sum of
      exactly 100.0 in one order, just above 100 in another, so the 5%
      discount applies to one only); a point [discretize_line] puts on a
      rectangle's edge can fall just outside it; and [Square.from_corners]
      can reach one unit in the last place past the rectangle of the same
      corners. The reals model proves the opposite of each, so the
      development states none of them.

    ** Not modelled

    - CPython's shortest [repr] of a float: the [__repr__] of [Point],
      [Line], [Rectangle] and [Square] are modelled over an abstract
      float printer [float_repr], a parameter of their sections.
    - Rounding of IEEE floats (see the modelling choices): no IEEE
      library is available to the development.
    - [print] itself: [show_order] returns the lines it would print.

    ** Plan for the next passes

    - [Square.init] stated as a client of [RectangleCtor] (its lines are
      well formed for a nonnegative side).
*)

From Stdlib Require Import String Reals Lra Lia List ZArith Sorted.
Import ListNotations.
Local Open Scope R_scope.

(** ** Python exceptions as values *)

(** The exceptions the modelled code can raise. *)
Inductive exn : Type :=
| ZeroDivisionError.

(** The outcome of a Python computation that may raise. *)
Inductive result (A : Type) : Type :=
| Ok (a : A)
| Raise (e : exn).
Arguments Ok {A} a.
Arguments Raise {A} e.

Definition bind {A B : Type} (m : result A) (k : A -> result B) : result B :=
  match m with
  | Ok a => k a
  | Raise e => Raise e
  end.

Declare Scope py_scope.
Delimit Scope py_scope with py.
Notation "'let?' x ':=' m 'in' k" := (bind m (fun x => k))
  (at level 10, x name, m at level 100, k at level 200) : py_scope.

(** ** Floats *)

(** [a / b] on Python floats. *)
Definition py_div (a b : R) : result R :=
  if Req_dec_T b 0 then Raise ZeroDivisionError else Ok (a / b).

(** The comparisons [a < b] and [a <= b] as Python evaluates them. *)
Definition Rltb (a b : R) : bool := if Rlt_dec a b then true else false.
Definition Rleb (a b : R) : bool := if Rle_dec a b then true else false.

(** The builtins [min(a, b)] and [max(a, b)]: CPython keeps the first
    argument unless the second compares strictly smaller (larger). *)
Definition py_min (a b : R) : R := if Rltb b a then b else a.
Definition py_max (a b : R) : R := if Rltb a b then b else a.

(** [range(n)] of Python ints: [0, 1, ..., n - 1], empty when [n <= 0]. *)
Definition range (n : Z) : list Z := map Z.of_nat (seq 0 (Z.to_nat n)).

(** ** Strings *)

(** [sep.join(l)]. *)
Fixpoint py_join (sep : string) (l : list string) : string :=
  match l with
  | [] => EmptyString
  | [a] => a
  | a :: r => (a ++ sep ++ py_join sep r)%string
  end.

(** [repr(l)] of a Python list, its elements printed by [repr]. *)
Definition py_list_repr {A : Type} (repr : A -> string) (l : list A) : string :=
  ("[" ++ py_join ", " (map repr l) ++ "]")%string.

(** ** Lemmas *)

Create Rewrite HintDb pyreal.
Create HintDb geo discriminated.

Lemma py_div_ok (a b : R) : b <> 0 -> py_div a b = Ok (a / b).
Proof. intros Hb. unfold py_div. destruct (Req_dec_T b 0); congruence. Qed.

Lemma py_div_zero (a : R) : py_div a 0 = Raise ZeroDivisionError.
Proof. unfold py_div. destruct (Req_dec_T 0 0); congruence. Qed.

Lemma Rleb_true (a b : R) : Rleb a b = true <-> a <= b.
Proof. unfold Rleb. destruct (Rle_dec a b); split; congruence || tauto. Qed.

Lemma py_min_Rmin (a b : R) : py_min a b = Rmin a b.
Proof.
  unfold py_min, Rltb, Rmin.
  destruct (Rlt_dec b a), (Rle_dec a b); lra.
Qed.

Lemma py_max_Rmax (a b : R) : py_max a b = Rmax a b.
Proof.
  unfold py_max, Rltb, Rmax.
  destruct (Rlt_dec a b), (Rle_dec a b); lra.
Qed.

#[export] Hint Rewrite py_min_Rmin py_max_Rmax : pyreal.

Lemma Rmin_le_Rmax (a b : R) : Rmin a b <= Rmax a b.
Proof. unfold Rmin, Rmax. destruct (Rle_dec a b); lra. Qed.

Lemma Rmax_minus_Rmin (a b : R) : Rmax a b - Rmin a b = Rabs (a - b).
Proof.
  unfold Rmin, Rmax, Rabs.
  destruct (Rle_dec a b), (Rcase_abs (a - b)); lra.
Qed.

#[export] Hint Resolve Rmin_le_Rmax Rmin_l Rmin_r Rmax_l Rmax_r Rmin_glb Rabs_pos : geo.

Lemma length_range (n : Z) : length (range n) = Z.to_nat n.
Proof. unfold range. now rewrite length_map, length_seq. Qed.

Lemma in_range (n i : Z) : In i (range n) <-> (0 <= i < n)%Z.
Proof.
  unfold range. rewrite in_map_iff. split.
  - intros (k & <- & Hk). apply in_seq in Hk. lia.
  - intros Hi. exists (Z.to_nat i). split; [lia |]. apply in_seq. lia.
Qed.

Lemma nth_range (n : Z) (k : nat) : (k < Z.to_nat n)%nat -> nth k (range n) 0%Z = Z.of_nat k.
Proof.
  intros Hk. unfold range.
  rewrite nth_indep with (d' := Z.of_nat 0) by (rewrite length_map, length_seq; lia).
  rewrite map_nth, seq_nth by lia. reflexivity.
Qed.

Lemma nth_map_range {A : Type} (f : Z -> A) (n : Z) (k : nat) (d : A) :
  (k < Z.to_nat n)%nat -> nth k (map f (range n)) d = f (Z.of_nat k).
Proof.
  intros Hk.
  rewrite nth_indep with (d' := f 0%Z) by (rewrite length_map, length_range; lia).
  rewrite map_nth, nth_range by exact Hk. reflexivity.
Qed.

Lemma In_map_range {A : Type} (f : Z -> A) (n : Z) (p : A) :
  In p (map f (range n)) -> exists i, (0 <= i < n)%Z /\ p = f i.
Proof.
  rewrite in_map_iff. intros (i & <- & Hi). apply in_range in Hi. eauto.
Qed.

(** Reversing a comprehension over [range n] reverses its index. *)
Lemma rev_map_range {A : Type} (f : Z -> A) (n : Z) :
  rev (map f (range n)) = map (fun i => f (n - 1 - i)%Z) (range n).
Proof.
  apply (nth_ext _ _ (f 0%Z) (f 0%Z)).
  - now rewrite length_rev, !length_map.
  - intros k Hk. rewrite length_rev, length_map, length_range in Hk.
    rewrite rev_nth by (rewrite length_map, length_range; lia).
    rewrite length_map, length_range, !nth_map_range by lia.
    f_equal. lia.
Qed.

(** A list built by [map] over [seq] is sorted when each element is
    related to the next. *)
Lemma Sorted_map_seq {A : Type} (Rel : A -> A -> Prop) (g : nat -> A) (m s : nat) :
  (forall i, (s <= i)%nat -> (S i < s + m)%nat -> Rel (g i) (g (S i))) ->
  Sorted Rel (map g (seq s m)).
Proof.
  revert s. induction m as [| m IH]; intros s H; cbn [seq map]; constructor.
  - apply IH. intros i Hi Hm. apply H; lia.
  - destruct m; cbn [seq map]; constructor. apply H; lia.
Qed.

Lemma Sorted_map_range {A : Type} (Rel : A -> A -> Prop) (f : Z -> A) (n : Z) :
  (forall i, (0 <= i)%Z -> (i + 1 < n)%Z -> Rel (f i) (f (i + 1)%Z)) ->
  Sorted Rel (map f (range n)).
Proof.
  intros H. unfold range. rewrite map_map. apply Sorted_map_seq.
  intros i _ Hi. rewrite Nat2Z.inj_succ, <- Z.add_1_r. apply H; lia.
Qed.

(** [sqrt (d ^ 2)] is the absolute value, the length of an axis-aligned
    segment. *)
Lemma sqrt_sq_abs (d : R) : sqrt (d ^ 2) = Rabs d.
Proof. rewrite <- sqrt_Rsqr_abs. f_equal. unfold Rsqr. ring. Qed.

Lemma sqrt_sq_0_plus (d : R) : sqrt ((0 : R) ^ 2 + d ^ 2) = Rabs d.
Proof. rewrite <- sqrt_sq_abs. f_equal. ring. Qed.

Lemma sqrt_plus_0_sq (d : R) : sqrt (d ^ 2 + (0 : R) ^ 2) = Rabs d.
Proof. rewrite <- sqrt_sq_abs. f_equal. ring. Qed.

#[export] Hint Rewrite sqrt_sq_0_plus sqrt_plus_0_sq sqrt_sq_abs : pyreal.

Lemma sq_zero (a : R) : a ^ 2 = 0 -> a = 0.
Proof.
  intros H. replace (a ^ 2) with (a * a) in H by ring.
  apply Rmult_integral in H. tauto.
Qed.

Lemma sum_sq_zero (a b : R) : a ^ 2 + b ^ 2 = 0 -> a = 0 /\ b = 0.
Proof.
  intros H. pose proof (pow2_ge_0 a). pose proof (pow2_ge_0 b).
  split; apply sq_zero; lra.
Qed.

Lemma sq_not_pos (a : R) : ~ 0 < a * a -> a = 0.
Proof.
  intros H. destruct (Req_dec_T a 0) as [| Ha]; [assumption |].
  exfalso. apply H, (Rsqr_pos_lt a Ha).
Qed.

Lemma ratio_in_unit (a b : R) : 0 < b -> 0 <= a <= b -> 0 <= a / b <= 1.
Proof.
  intros Hb [H0 H1]. split.
  - apply Rmult_le_pos; [lra | left; now apply Rinv_0_lt_compat].
  - apply Rmult_le_reg_r with b; [lra |].
    unfold Rdiv. rewrite Rmult_assoc, Rinv_l by lra. lra.
Qed.

(** A ratio whose numerator is no larger than its denominator. *)
Lemma Rabs_ratio_le_1 (a b : R) : a <> 0 -> Rabs a <= Rabs b -> 0 < Rabs (a / b) <= 1.
Proof.
  intros Ha Hab. pose proof (Rabs_pos_lt a Ha) as Hpa.
  assert (Hb : 0 < Rabs b) by lra.
  unfold Rdiv. rewrite Rabs_mult, Rabs_inv. split.
  - apply Rmult_lt_0_compat; [lra | now apply Rinv_0_lt_compat].
  - apply Rmult_le_reg_r with (Rabs b); [lra |].
    rewrite Rmult_assoc, Rinv_l by lra. lra.
Qed.

(** Case analysis on every real comparison of the goal. *)
Ltac rdecide :=
  repeat match goal with
    | |- context [Req_dec_T ?a ?b] => destruct (Req_dec_T a b)
    | |- context [Rlt_dec ?a ?b] => destruct (Rlt_dec a b)
    | |- context [Rle_dec ?a ?b] => destruct (Rle_dec a b)
    end.

