(* ===== verification/Point.v ===== *)
(** * [Point] of [src/classLine.py] (lines 3-10)

    A point is two float coordinates, modelled as reals. Its
    [__repr__] is modelled over an abstract printer of floats
    ([float_repr]), since CPython's shortest round-trip float formatting
    is outside this development. *)

From Stdlib Require Import Reals Lra String.
From S2P Require Import Prelude.
Local Open Scope R_scope.

(** [class Point]: [__init__] stores [x] and [y]. *)
Record Point : Type := mkPoint { x : R; y : R }.

(** Equality of points is decidable (on the reals, classically). *)
Definition Point_eq_dec (p q : Point) : {p = q} + {p <> q}.
Proof.
  destruct p as [px py], q as [qx qy].
  destruct (Req_dec_T px qx) as [<- | Hx]; [| right; congruence].
  destruct (Req_dec_T py qy) as [<- | Hy]; [left; reflexivity | right; congruence].
Defined.

Section Repr.
(** [f"{v}"] for a float [v]. *)
Context (float_repr : R -> string).

(** [Point.__repr__]: [f"Point({self.x}, {self.y})"]. *)
Definition point_repr (p : Point) : string :=
  ("Point(" ++ float_repr (x p) ++ ", " ++ float_repr (y p) ++ ")")%string.
End Repr.

(** ** Lemmas *)

(** Two points are equal when their coordinates are. *)
Lemma Point_ext (p q : Point) : x p = x q -> y p = y q -> p = q.
Proof. destruct p, q; simpl; intros -> ->; reflexivity. Qed.
