(* ===== verification/Line.v ===== *)
(** * [Line] of [src/classLine.py] (lines 13-55)

    A line is two points. Its five methods are modelled one definition
    each; those that divide return a [result], since Python raises
    [ZeroDivisionError] on a zero divisor. The theorems cover length,
    slope, the two axis crossings (their [None] cases, the inputs on
    which they raise, and the gap between the value returned and the real
    intercept), and the discretisation. *)

From Stdlib Require Import String Reals Lra Lia List ZArith Sorted.
From S2P Require Import Prelude Point.
Import ListNotations.
Local Open Scope R_scope.
Local Open Scope py_scope.

(** [class Line]: [__init__] stores [start] and [end]. *)
Record Line : Type := mkLine { start : Point; end_ : Point }.

(** [compute_length]:
    [((end.x - start.x) ** 2 + (end.y - start.y) ** 2) ** 0.5]. *)
Definition compute_length (l : Line) : R :=
  sqrt ((x (end_ l) - x (start l)) ^ 2 + (y (end_ l) - y (start l)) ^ 2).

(** [math.degrees]. *)
Definition degrees (r : R) : R := r * (180 / PI).

(** [compute_slope]: [None] for a vertical line, otherwise
    [math.degrees(math.atan(dy / dx))]. *)
Definition compute_slope (l : Line) : result (option R) :=
  if Req_dec_T (x (start l)) (x (end_ l)) then Ok None
  else
    let? q := py_div (y (end_ l) - y (start l)) (x (end_ l) - x (start l)) in
    Ok (Some (degrees (atan q))).

(** [compute_horizontal_cross]: [None] when the slope is [None] or
    [start.y * end.y > 0], otherwise [-start.y / slope + start.x], where
    [slope] is the angle in degrees. *)
Definition compute_horizontal_cross (l : Line) : result (option R) :=
  let? slope := compute_slope l in
  match slope with
  | None => Ok None
  | Some s =>
      if Rltb 0 (y (start l) * y (end_ l)) then Ok None
      else
        let? q := py_div (- y (start l)) s in
        Ok (Some (q + x (start l)))
  end.

(** [compute_vertical_cross]: [None] when the slope is [None] or
    [start.x * end.x > 0], otherwise [-start.x / slope + start.y]. *)
Definition compute_vertical_cross (l : Line) : result (option R) :=
  let? slope := compute_slope l in
  match slope with
  | None => Ok None
  | Some s =>
      if Rltb 0 (x (start l) * x (end_ l)) then Ok None
      else
        let? q := py_div (- x (start l)) s in
        Ok (Some (q + y (start l)))
  end.

(** The point of index [i] of the comprehension of [discretize_line]:
    [Point(start.x + i * step_x, start.y + i * step_y)]. *)
Definition discretize_point (l : Line) (step_x step_y : R) (i : Z) : Point :=
  mkPoint (x (start l) + IZR i * step_x) (y (start l) + IZR i * step_y).

(** [discretize_line n]: [[start, end]] when [n < 2], otherwise the
    [n] points of index [0 .. n - 1], with steps [(end - start) / (n - 1)]. *)
Definition discretize_line (l : Line) (n : Z) : result (list Point) :=
  if (n <? 2)%Z then Ok [start l; end_ l]
  else
    let? step_x := py_div (x (end_ l) - x (start l)) (IZR (n - 1)) in
    let? step_y := py_div (y (end_ l) - y (start l)) (IZR (n - 1)) in
    Ok (map (discretize_point l step_x step_y) (range n)).

Section Repr.
Context (float_repr : R -> string).

(** [Line.__repr__]: [f"Line(start={self.start}, end={self.end})"]. *)
Definition line_repr (l : Line) : string :=
  ("Line(start=" ++ point_repr float_repr (start l) ++ ", end="
    ++ point_repr float_repr (end_ l) ++ ")")%string.
End Repr.

(** The x-axis intercept of the line through [start] and [end], with the
    dimensionally consistent formula of the spec (section 4.2):
    [start.x - start.y * dx / dy]. A reference for the theorems, not code. *)
Definition x_intercept (l : Line) : R :=
  x (start l) - y (start l) * (x (end_ l) - x (start l)) / (y (end_ l) - y (start l)).

(** How far [p] lies along the direction of the line from [start] (the
    dot product of [p - start] with [end - start]). A reference for the
    theorems, not code. *)
Definition along (l : Line) (p : Point) : R :=
  (x p - x (start l)) * (x (end_ l) - x (start l)) + (y p - y (start l)) * (y (end_ l) - y (start l)).

(** ** Length *)

Lemma length_sq_sym (a b : Point) :
  (x b - x a) ^ 2 + (y b - y a) ^ 2 = (x a - x b) ^ 2 + (y a - y b) ^ 2.
Proof. ring. Qed.

Lemma length_radicand_nonneg (l : Line) :
  0 <= (x (end_ l) - x (start l)) ^ 2 + (y (end_ l) - y (start l)) ^ 2.
Proof. apply Rplus_le_le_0_compat; apply pow2_ge_0. Qed.

(** The length of a horizontal or vertical segment. *)
Lemma compute_length_horizontal (a b c : R) :
  compute_length (mkLine (mkPoint a c) (mkPoint b c)) = Rabs (b - a).
Proof.
  unfold compute_length; cbn [x y start end_]. rewrite Rminus_diag.
  apply sqrt_plus_0_sq.
Qed.

Lemma compute_length_vertical (a b c : R) :
  compute_length (mkLine (mkPoint c a) (mkPoint c b)) = Rabs (b - a).
Proof.
  unfold compute_length; cbn [x y start end_]. rewrite Rminus_diag.
  apply sqrt_sq_0_plus.
Qed.

#[export] Hint Rewrite compute_length_horizontal compute_length_vertical : pyreal.

(** the length does not depend on the direction of the line. *)
Theorem compute_length_sym (a b : Point) :
  compute_length (mkLine a b) = compute_length (mkLine b a).
Proof. unfold compute_length; cbn [start end_]. now rewrite length_sq_sym. Qed.

(** C17: the length is nonnegative, and zero exactly for a degenerate line
    ([start = end]). *)
Theorem compute_length_zero_iff (l : Line) :
  0 <= compute_length l /\ (compute_length l = 0 <-> start l = end_ l).
Proof.
  unfold compute_length. split; [apply sqrt_pos |].
  pose proof (length_radicand_nonneg l) as Hr.
  destruct l as [[sx sy] [ex ey]]; cbn [x y start end_] in *. split.
  - intros H0. apply sqrt_eq_0, sum_sq_zero in H0; [| exact Hr].
    f_equal; lra.
  - intros [= <- <-]. replace ((sx - sx) ^ 2 + (sy - sy) ^ 2) with 0 by ring.
    apply sqrt_0.
Qed.

(** ** Slope *)

Lemma degrees_atan_eq_0 (q : R) : degrees (atan q) = 0 <-> q = 0.
Proof.
  pose proof PI_RGT_0 as Hpi. unfold degrees. split.
  - intros H. apply Rmult_integral in H as [H | H]; [now apply atan_eq0 |].
    exfalso. assert (0 < 180 / PI) by (apply Rdiv_lt_0_compat; lra). lra.
  - intros ->. rewrite atan_0. ring.
Qed.

(** Below 45 degrees the angle in degrees exceeds the ratio [dy / dx]:
    [tan a < 2 a] for [0 < a <= PI / 4], and [degrees a >= 45 a]. *)
Lemma degrees_atan_gt (m : R) : 0 < m <= 1 -> m < degrees (atan m).
Proof.
  intros [H0 H1]. pose proof PI_RGT_0 as Hpi. pose proof PI_4 as Hpi4.
  assert (Ha0 : 0 < atan m) by (rewrite <- atan_0; apply atan_increasing; lra).
  assert (Ha1 : atan m <= PI / 4).
  { rewrite <- atan_1. destruct (Req_dec_T m 1) as [-> | Hm]; [lra |].
    left; apply atan_increasing; lra. }
  assert (Hc : 1 / 2 < cos (atan m)) by (rewrite <- cos_PI3; apply cos_decreasing_1; lra).
  assert (Hs : sin (atan m) < atan m) by (apply sin_lt_x; lra).
  assert (Hm : m * cos (atan m) = sin (atan m)).
  { rewrite <- (tan_atan m) at 1. unfold tan. field. lra. }
  assert (Hk : 45 <= 180 / PI).
  { apply Rmult_le_reg_r with PI; [lra |].
    unfold Rdiv. rewrite Rmult_assoc, Rinv_l by lra. lra. }
  unfold degrees. nra.
Qed.

Lemma degrees_atan_neq (m : R) : 0 < Rabs m <= 1 -> degrees (atan m) <> m.
Proof.
  unfold Rabs. destruct (Rcase_abs m) as [Hneg | Hpos]; intros Hm.
  - pose proof (degrees_atan_gt (- m) ltac:(lra)) as H.
    rewrite atan_opp in H. unfold degrees in *. lra.
  - pose proof (degrees_atan_gt m Hm). lra.
Qed.

(** [compute_slope] in closed form: its division never raises. *)
Lemma compute_slope_eq (l : Line) :
  compute_slope l =
  if Req_dec_T (x (start l)) (x (end_ l)) then Ok None
  else Ok (Some (degrees (atan ((y (end_ l) - y (start l)) / (x (end_ l) - x (start l)))))).
Proof.
  unfold compute_slope. destruct (Req_dec_T _ _) as [| Hne]; [reflexivity |].
  rewrite py_div_ok by lra. reflexivity.
Qed.

(** C12: [compute_slope] never raises, and returns [None] exactly for a
    vertical line ([start.x == end.x]). *)
Theorem compute_slope_total (l : Line) :
  exists o, compute_slope l = Ok o /\ (o = None <-> x (start l) = x (end_ l)).
Proof.
  rewrite compute_slope_eq. destruct (Req_dec_T _ _) as [He | Hne];
    eexists; (split; [reflexivity |]); split; congruence || tauto.
Qed.

(** C13: the slope does not depend on the direction of the line: the line
    from [a] to [b] and the line from [b] to [a] report the same angle. *)
Theorem compute_slope_reverse (a b : Point) :
  compute_slope (mkLine b a) = compute_slope (mkLine a b).
Proof.
  rewrite !compute_slope_eq; cbn [start end_].
  destruct (Req_dec_T (x b) (x a)), (Req_dec_T (x a) (x b)); try reflexivity; try lra.
  replace ((y a - y b) / (x a - x b)) with ((y b - y a) / (x b - x a)) by (field; lra).
  reflexivity.
Qed.

(** ** Axis crossings *)

(** The common shape of [compute_horizontal_cross] ([a, b, c] =
    [start.y, end.y, start.x]) and [compute_vertical_cross] ([a, b, c] =
    [start.x, end.x, start.y]) in closed form. The division by the slope
    raises exactly when the slope is 0 degrees, that is when
    [end.y = start.y]. *)
Lemma axis_cross_eq (l : Line) (a b c : R) :
  bind (compute_slope l) (fun slope =>
    match slope with
    | None => Ok None
    | Some s =>
        if Rltb 0 (a * b) then Ok None
        else bind (py_div (- a) s) (fun q => Ok (Some (q + c)))
    end) =
  if Req_dec_T (x (start l)) (x (end_ l)) then Ok None
  else if Rltb 0 (a * b) then Ok None
  else if Req_dec_T (y (end_ l) - y (start l)) 0 then Raise ZeroDivisionError
  else Ok (Some (- a / degrees (atan ((y (end_ l) - y (start l)) / (x (end_ l) - x (start l)))) + c)).
Proof.
  rewrite compute_slope_eq. destruct (Req_dec_T _ _) as [| Hx]; [reflexivity |].
  cbn [bind]. destruct (Rltb 0 (a * b)); [reflexivity |].
  destruct (Req_dec_T (y (end_ l) - y (start l)) 0) as [Hz | Hz].
  - rewrite Hz, Rdiv_0_l, atan_0. unfold degrees. rewrite Rmult_0_l.
    rewrite py_div_zero. reflexivity.
  - rewrite py_div_ok; [reflexivity |].
    rewrite degrees_atan_eq_0. intros Hq. apply Hz.
    apply (f_equal (Rmult (x (end_ l) - x (start l)))) in Hq.
    field_simplify in Hq; lra.
Qed.

Lemma compute_horizontal_cross_eq (l : Line) :
  compute_horizontal_cross l =
  if Req_dec_T (x (start l)) (x (end_ l)) then Ok None
  else if Rltb 0 (y (start l) * y (end_ l)) then Ok None
  else if Req_dec_T (y (end_ l) - y (start l)) 0 then Raise ZeroDivisionError
  else Ok (Some (- y (start l) / degrees (atan ((y (end_ l) - y (start l)) / (x (end_ l) - x (start l)))) + x (start l))).
Proof. apply axis_cross_eq. Qed.

Lemma compute_vertical_cross_eq (l : Line) :
  compute_vertical_cross l =
  if Req_dec_T (x (start l)) (x (end_ l)) then Ok None
  else if Rltb 0 (x (start l) * x (end_ l)) then Ok None
  else if Req_dec_T (y (end_ l) - y (start l)) 0 then Raise ZeroDivisionError
  else Ok (Some (- x (start l) / degrees (atan ((y (end_ l) - y (start l)) / (x (end_ l) - x (start l)))) + y (start l))).
Proof. apply axis_cross_eq. Qed.

(** Unfold a crossing to its closed form and split on every test. *)
Ltac cross_cases E :=
  rewrite E; unfold Rltb; rdecide; split; intros;
  repeat match goal with H : _ /\ _ |- _ => destruct H end;
  try discriminate; try congruence; try lra.

(** C15: [compute_horizontal_cross] returns [None] exactly when the line is
    vertical or both endpoints lie strictly on the same side of the x axis. *)
Theorem compute_horizontal_cross_none (l : Line) :
  compute_horizontal_cross l = Ok None <->
  x (start l) = x (end_ l) \/ 0 < y (start l) * y (end_ l).
Proof. cross_cases compute_horizontal_cross_eq; tauto. Qed.

(** C16: [compute_vertical_cross] returns [None] exactly when the line is
    vertical, whether or not it lies on the y axis, or both endpoints lie
    strictly on the same side of the y axis. *)
Theorem compute_vertical_cross_none (l : Line) :
  compute_vertical_cross l = Ok None <->
  x (start l) = x (end_ l) \/ 0 < x (start l) * x (end_ l).
Proof. cross_cases compute_vertical_cross_eq; tauto. Qed.

(** C3: [compute_horizontal_cross] raises [ZeroDivisionError] exactly on a
    non-vertical line lying on the x axis: its slope is 0 degrees and the
    guard [start.y * end.y > 0] does not stop the division. *)
Theorem compute_horizontal_cross_raises (l : Line) :
  compute_horizontal_cross l = Raise ZeroDivisionError <->
  x (start l) <> x (end_ l) /\ y (start l) = 0 /\ y (end_ l) = 0.
Proof.
  cross_cases compute_horizontal_cross_eq.
  - match goal with H : y (start l) = 0 |- _ => rewrite H in * end. lra.
  - match goal with H : ~ 0 < _ |- _ =>
      replace (y (end_ l)) with (y (start l)) in H by lra; apply sq_not_pos in H
    end. lra.
Qed.

Lemma compute_horizontal_cross_raises_witness :
  let l := mkLine (mkPoint 0 0) (mkPoint 1 0) in
  compute_horizontal_cross l = Raise ZeroDivisionError.
Proof.
  intros l. apply (proj2 (compute_horizontal_cross_raises l)). cbn. lra.
Defined.

(** C4: [compute_vertical_cross] raises [ZeroDivisionError] exactly on a
    horizontal, non-degenerate line whose endpoints are not strictly on the
    same side of the y axis, such as the line from (-1, 5) to (1, 5). *)
Theorem compute_vertical_cross_raises (l : Line) :
  compute_vertical_cross l = Raise ZeroDivisionError <->
  x (start l) <> x (end_ l) /\ y (start l) = y (end_ l) /\ x (start l) * x (end_ l) <= 0.
Proof. cross_cases compute_vertical_cross_eq. Qed.

Lemma compute_vertical_cross_raises_witness :
  let l := mkLine (mkPoint (-1) 5) (mkPoint 1 5) in
  compute_vertical_cross l = Raise ZeroDivisionError.
Proof.
  intros l. apply (proj2 (compute_vertical_cross_raises l)). cbn. lra.
Defined.

Lemma intercept_ne (sy sx dx dy D : R) :
  sy <> 0 -> dx <> 0 -> dy <> 0 -> D <> 0 -> D <> dy / dx ->
  - sy / D + sx <> sx - sy * dx / dy.
Proof.
  intros Hsy Hdx Hdy HD HDm Heq. apply HDm.
  assert (E : sy * (dy - dx * D) = 0).
  { replace (sy * (dy - dx * D))
      with (D * dy * ((sx - sy * dx / dy) - (- sy / D + sx))) by (field; auto).
    rewrite <- Heq. ring. }
  apply Rmult_integral in E as [E | E]; [contradiction |].
  replace dy with (dx * D) by lra. field. exact Hdx.
Qed.

(** C5: the value [compute_horizontal_cross] returns is not the x-axis
    intercept. For every non-vertical line that crosses the x axis from a
    point off it, with [|dy| <= |dx|], the code divides [start.y] by the
    angle in degrees where the intercept needs the ratio [dy / dx], and
    the two results differ. *)
Theorem compute_horizontal_cross_not_intercept (l : Line) :
  x (start l) <> x (end_ l) -> y (start l) <> 0 -> y (start l) * y (end_ l) <= 0 ->
  Rabs (y (end_ l) - y (start l)) <= Rabs (x (end_ l) - x (start l)) ->
  exists v, compute_horizontal_cross l = Ok (Some v) /\ v <> x_intercept l.
Proof.
  intros Hx Hy Hs Hm. rewrite compute_horizontal_cross_eq. unfold Rltb. rdecide; try lra.
  - exfalso. apply Hy, sq_not_pos. replace (y (end_ l)) with (y (start l)) in Hs by lra. lra.
  - eexists; split; [reflexivity |]. unfold x_intercept.
    pose proof (Rabs_ratio_le_1 _ _ n0 Hm) as Hr.
    apply intercept_ne; [exact Hy | lra | exact n0 | |].
    + rewrite degrees_atan_eq_0. intros H0. rewrite H0, Rabs_R0 in Hr. lra.
    + now apply degrees_atan_neq.
Qed.

Lemma compute_horizontal_cross_not_intercept_witness :
  let l := mkLine (mkPoint 0 (-1)) (mkPoint 2 1) in
  exists v, compute_horizontal_cross l = Ok (Some v) /\ v <> x_intercept l.
Proof.
  intros l. apply compute_horizontal_cross_not_intercept; cbv [l x y start end_]; try lra.
  apply Req_le. f_equal. ring.
Defined.

(** ** Discretisation *)

(** For [n >= 2] both divisions by [n - 1] succeed. *)
Lemma discretize_line_eq (l : Line) (n : Z) :
  (2 <= n)%Z ->
  discretize_line l n =
  Ok (map (discretize_point l ((x (end_ l) - x (start l)) / IZR (n - 1))
                              ((y (end_ l) - y (start l)) / IZR (n - 1))) (range n)).
Proof.
  intros Hn. unfold discretize_line.
  destruct (Z.ltb_spec n 2) as [Hlt | _]; [lia |].
  rewrite !py_div_ok by (apply not_0_IZR; lia). reflexivity.
Qed.

Lemma IZR_pred_pos (n : Z) : (2 <= n)%Z -> 0 < IZR (n - 1).
Proof. intros Hn. apply IZR_lt. lia. Qed.

(** C8: [discretize_line] never raises; it returns [n] points for
    [n >= 2] and exactly two points otherwise. *)
Theorem discretize_line_count (l : Line) (n : Z) :
  exists ps, discretize_line l n = Ok ps /\
    length ps = (if (n <? 2)%Z then 2%nat else Z.to_nat n).
Proof.
  destruct (Z.ltb_spec n 2) as [Hlt | Hge].
  - exists [start l; end_ l]. unfold discretize_line.
    destruct (Z.ltb_spec n 2); [split; reflexivity | lia].
  - rewrite discretize_line_eq by exact Hge. eexists; split; [reflexivity |].
    now rewrite length_map, length_range.
Qed.

(** C9: the first point of a discretisation is [start] and the last is
    [end], whatever [n]. *)
Theorem discretize_line_endpoints (l : Line) (n : Z) (d : Point) :
  exists ps, discretize_line l n = Ok ps /\
    nth 0 ps d = start l /\ nth (length ps - 1) ps d = end_ l.
Proof.
  destruct (Z.ltb_spec n 2) as [Hlt | Hge].
  - exists [start l; end_ l]. unfold discretize_line.
    destruct (Z.ltb_spec n 2); [repeat split | lia].
  - rewrite discretize_line_eq by exact Hge. eexists; split; [reflexivity |].
    pose proof (IZR_pred_pos n Hge) as Hm.
    rewrite length_map, length_range.
    rewrite !nth_map_range by lia. unfold discretize_point.
    replace (Z.of_nat (Z.to_nat n - 1)) with (n - 1)%Z by lia.
    split; apply Point_ext; cbn [x y Z.of_nat]; field; lra.
Qed.

(** The parameter of each point of a discretisation along its line. *)
Lemma discretize_line_param (l : Line) (n : Z) (ps : list Point) (p : Point) :
  discretize_line l n = Ok ps -> In p ps ->
  exists t, 0 <= t <= 1 /\
    x p = x (start l) + t * (x (end_ l) - x (start l)) /\
    y p = y (start l) + t * (y (end_ l) - y (start l)).
Proof.
  intros Hd Hp. destruct (Z.ltb_spec n 2) as [Hlt | Hge].
  - unfold discretize_line in Hd. destruct (Z.ltb_spec n 2); [| lia].
    injection Hd as <-.
    destruct Hp as [<- | [<- | []]]; [exists 0 | exists 1]; repeat split; lra.
  - rewrite discretize_line_eq in Hd by exact Hge. injection Hd as <-.
    apply In_map_range in Hp as (i & Hi & ->).
    pose proof (IZR_pred_pos n Hge) as Hm.
    exists (IZR i / IZR (n - 1)). unfold discretize_point; cbn [x y].
    split; [apply ratio_in_unit; [lra | split; apply IZR_le; lia] |].
    split; field; lra.
Qed.

(** C10: every point of a discretisation lies on the segment from [start]
    to [end]: it is [start + t * (end - start)] for some [t] in [[0, 1]]. *)
Theorem discretize_line_on_segment (l : Line) (n : Z) (ps : list Point) (p : Point) :
  discretize_line l n = Ok ps -> In p ps ->
  exists t, 0 <= t <= 1 /\
    x p = x (start l) + t * (x (end_ l) - x (start l)) /\
    y p = y (start l) + t * (y (end_ l) - y (start l)).
Proof. apply discretize_line_param. Qed.

Lemma discretize_line_on_segment_witness :
  let l := mkLine (mkPoint 0 0) (mkPoint 2 4) in
  let p := discretize_point l ((2 - 0) / IZR (3 - 1)) ((4 - 0) / IZR (3 - 1)) 1 in
  exists t, 0 <= t <= 1 /\
    x p = x (start l) + t * (x (end_ l) - x (start l)) /\
    y p = y (start l) + t * (y (end_ l) - y (start l)).
Proof.
  intros l p.
  apply (discretize_line_on_segment l 3
           (map (discretize_point l ((2 - 0) / IZR (3 - 1)) ((4 - 0) / IZR (3 - 1))) (range 3))).
  - apply discretize_line_eq. lia.
  - simpl. right. left. reflexivity.
Defined.

(** C11: a discretisation into [n >= 2] points is evenly spaced: two
    consecutive points are [length / (n - 1)] apart. *)
Theorem discretize_line_spacing (l : Line) (n : Z) (ps : list Point) (k : nat) (d : Point) :
  discretize_line l n = Ok ps -> (2 <= n)%Z -> (S k < length ps)%nat ->
  compute_length (mkLine (nth k ps d) (nth (S k) ps d)) = compute_length l / IZR (n - 1).
Proof.
  intros Hd Hn Hk. rewrite discretize_line_eq in Hd by exact Hn. injection Hd as <-.
  rewrite length_map, length_range in Hk. rewrite !nth_map_range by lia.
  pose proof (IZR_pred_pos n Hn) as Hm.
  unfold compute_length, discretize_point; cbn [x y start end_].
  match goal with |- sqrt ?r = _ =>
    replace r with (((x (end_ l) - x (start l)) ^ 2 + (y (end_ l) - y (start l)) ^ 2)
                    / IZR (n - 1) ^ 2)
      by (rewrite Nat2Z.inj_succ, succ_IZR; field; lra)
  end.
  rewrite sqrt_div_alt by (apply pow_lt; lra).
  rewrite sqrt_pow2 by lra. reflexivity.
Qed.

Lemma discretize_line_spacing_witness :
  let l := mkLine (mkPoint 0 0) (mkPoint 3 4) in
  let ps := map (discretize_point l ((3 - 0) / IZR (4 - 1)) ((4 - 0) / IZR (4 - 1))) (range 4) in
  compute_length (mkLine (nth 1 ps l.(start)) (nth 2 ps l.(start))) = compute_length l / IZR (4 - 1).
Proof.
  intros l ps. apply (discretize_line_spacing l 4 ps 1 (start l)).
  - apply discretize_line_eq. lia.
  - lia.
  - unfold ps. rewrite length_map, length_range. cbn. lia.
Defined.

(** C32: discretising the reversed line gives the same points in reverse
    order, for every [n]. *)
Theorem discretize_line_reverse (a b : Point) (n : Z) :
  exists ps, discretize_line (mkLine a b) n = Ok ps /\
             discretize_line (mkLine b a) n = Ok (rev ps).
Proof.
  destruct (Z.ltb_spec n 2) as [Hlt | Hge].
  - unfold discretize_line. destruct (Z.ltb_spec n 2); [| lia].
    eexists; split; reflexivity.
  - rewrite !discretize_line_eq by exact Hge. eexists; split; [reflexivity |].
    rewrite rev_map_range. f_equal. apply map_ext_in. intros i Hi.
    pose proof (IZR_pred_pos n Hge) as Hm.
    unfold discretize_point. apply Point_ext; cbn [x y start end_];
      rewrite (minus_IZR (n - 1) i); field; lra.
Qed.

(** The squared length of a line with distinct ends is positive. *)
Lemma dir_sq_pos (l : Line) :
  start l <> end_ l ->
  0 < (x (end_ l) - x (start l)) * (x (end_ l) - x (start l))
      + (y (end_ l) - y (start l)) * (y (end_ l) - y (start l)).
Proof.
  intros Hne. set (a := x (end_ l) - x (start l)). set (b := y (end_ l) - y (start l)).
  pose proof (Rle_0_sqr a) as Ha. pose proof (Rle_0_sqr b) as Hb. unfold Rsqr in Ha, Hb.
  destruct (Rle_lt_dec (a * a + b * b) 0) as [Hle | Hlt]; [| exact Hlt].
  assert (Hx : a = 0) by (apply sq_not_pos; lra).
  assert (Hy : b = 0) by (apply sq_not_pos; lra).
  exfalso. apply Hne, Point_ext; unfold a, b in *; lra.
Qed.

(** C26: the points of a discretisation come in order along the line:
    each lies strictly further from [start], in the line's direction, than
    the one before, for every [n], as long as the line has two distinct
    ends. *)
Theorem discretize_line_sorted (l : Line) (n : Z) (ps : list Point) :
  discretize_line l n = Ok ps -> start l <> end_ l ->
  Sorted (fun p q => along l p < along l q) ps.
Proof.
  intros Hd Hne. pose proof (dir_sq_pos l Hne) as Hpos. unfold along.
  destruct (Z.ltb_spec n 2) as [Hlt | Hge].
  - unfold discretize_line in Hd. destruct (Z.ltb_spec n 2); [| lia].
    injection Hd as <-. repeat constructor. lra.
  - rewrite discretize_line_eq in Hd by exact Hge. injection Hd as <-.
    apply Sorted_map_range. intros i Hi Hin. pose proof (IZR_pred_pos n Hge) as Hm.
    unfold discretize_point; cbn [x y]. rewrite plus_IZR.
    match goal with |- ?a < ?b =>
      replace b with (a + ((x (end_ l) - x (start l)) * (x (end_ l) - x (start l))
                          + (y (end_ l) - y (start l)) * (y (end_ l) - y (start l))) / IZR (n - 1))
        by (field; lra)
    end.
    pose proof (Rdiv_lt_0_compat _ _ Hpos Hm). lra.
Qed.

Lemma discretize_line_sorted_witness :
  let l := mkLine (mkPoint 0 0) (mkPoint 3 4) in
  Sorted (fun p q => along l p < along l q)
    (map (discretize_point l ((3 - 0) / IZR (4 - 1)) ((4 - 0) / IZR (4 - 1))) (range 4)).
Proof.
  intros l. apply (discretize_line_sorted l 4).
  - apply discretize_line_eq. lia.
  - unfold l. intros H. injection H as H. lra.
Defined.
