(* ===== verification/Rectangle.v ===== *)
(** * [Rectangle] of [src/classLine.py] (lines 58-105)

    [Module Rectangle] models the class: the record of the fields its
    constructor sets, the constructor [init], the class method
    [from_corners] and the three derived operations. [Box] is the
    abstract specification of an axis-aligned rectangle (section 4.3 of
    the spec); [refines] relates a [Rectangle] to the box it implements.
    The theorems show that [from_corners] builds a closed axis-aligned
    rectangle that refines the box of its corners for corners, width,
    centre and containment, and that the height is wrong: [init] reads it
    off the top line, so area and perimeter are those of a square.
    The class method is [from_corners_cls], over the constructor [cls];
    [RectangleCtor] states what a constructor promises it, [init] is an
    instance, and the refinement is proved against the class.
    [rect_repr] models [__repr__] over an abstract float printer. *)

From Stdlib Require Import String Bool Reals Lra Lia List ZArith.
From S2P Require Import Prelude Point Line.
Import ListNotations.
Local Open Scope R_scope.

Module Rectangle.

(** The fields [Rectangle.__init__] sets. *)
Record Rectangle : Type := mkRectangle {
  lines : list Line;
  bottom_left : Point;
  bottom_right : Point;
  top_left : Point;
  top_right : Point;
  width : R;
  height : R;
  center : Point
}.

(** [Rectangle.__init__(line1, line2, line3, line4)]: the corners are the
    endpoints of lines 1 and 3, the width and the height are the lengths
    of lines 1 and 3, the centre is the midpoint of the bottom-left and
    top-right corners. *)
Definition init (line1 line2 line3 line4 : Line) : Rectangle :=
  let bottom_left := start line1 in
  let bottom_right := end_ line1 in
  let top_left := start line3 in
  let top_right := end_ line3 in
  let width := compute_length line1 in
  let height := compute_length line3 in
  let center := mkPoint ((x bottom_left + x top_right) / 2)
                        ((y bottom_left + y top_right) / 2) in
  mkRectangle [line1; line2; line3; line4]
    bottom_left bottom_right top_left top_right width height center.

(** The class method [Rectangle.from_corners(cls, corner1, corner2)]:
    normalise the corners with [min] and [max], build the bottom, right,
    top and left lines, and call [cls], the constructor of the class the
    method is called on. *)
Definition from_corners_cls {T : Type} (cls : Line -> Line -> Line -> Line -> T)
    (corner1 corner2 : Point) : T :=
  let bottom_left := mkPoint (py_min (x corner1) (x corner2)) (py_min (y corner1) (y corner2)) in
  let top_right := mkPoint (py_max (x corner1) (x corner2)) (py_max (y corner1) (y corner2)) in
  let line1 := mkLine bottom_left (mkPoint (x top_right) (y bottom_left)) in
  let line2 := mkLine (mkPoint (x top_right) (y bottom_left)) top_right in
  let line3 := mkLine (mkPoint (x bottom_left) (y top_right)) top_right in
  let line4 := mkLine bottom_left (mkPoint (x bottom_left) (y top_right)) in
  cls line1 line2 line3 line4.

(** [Rectangle.from_corners(corner1, corner2)]: called on [Rectangle]. *)
Definition from_corners (corner1 corner2 : Point) : Rectangle := from_corners_cls init corner1 corner2.

(** [compute_area]: [self.width * self.height]. *)
Definition compute_area (r : Rectangle) : R := width r * height r.

(** [compute_perimeter]: [2 * (self.width + self.height)]. *)
Definition compute_perimeter (r : Rectangle) : R := 2 * (width r + height r).

(** [contains_point]: [bottom_left.x <= p.x <= top_right.x and
    bottom_left.y <= p.y <= top_right.y]. *)
Definition contains_point (r : Rectangle) (p : Point) : bool :=
  (Rleb (x (bottom_left r)) (x p) && Rleb (x p) (x (top_right r))) &&
  (Rleb (y (bottom_left r)) (y p) && Rleb (y p) (y (top_right r))).

Section Repr.
Context (float_repr : R -> string).

(** [Rectangle.__repr__]. *)
Definition rect_repr (r : Rectangle) : string :=
  ("Rectangle(lines=" ++ py_list_repr (line_repr float_repr) (lines r)
   ++ ", center=" ++ point_repr float_repr (center r)
   ++ ", width=" ++ float_repr (width r)
   ++ ", height=" ++ float_repr (height r) ++ ")")%string.
End Repr.

(** Four lines that close into an axis-aligned rectangle, oriented as the
    constructor expects: line 1 from bottom-left to bottom-right, line 2
    from bottom-right to top-right, line 3 from top-left to top-right,
    line 4 from bottom-left to top-left. *)
Definition wf_lines (l1 l2 l3 l4 : Line) : Prop :=
  end_ l1 = start l2 /\ end_ l2 = end_ l3 /\ start l3 = end_ l4 /\ start l4 = start l1 /\
  y (start l1) = y (end_ l1) /\ y (start l3) = y (end_ l3) /\
  x (start l2) = x (end_ l2) /\ x (start l4) = x (end_ l4) /\
  x (start l1) <= x (end_ l1) /\ y (start l1) <= y (end_ l3).

(** ** The abstract specification: an axis-aligned box *)

Record Box : Type := mkBox { xlo : R; xhi : R; ylo : R; yhi : R }.

Definition box_of_corners (c1 c2 : Point) : Box :=
  mkBox (Rmin (x c1) (x c2)) (Rmax (x c1) (x c2)) (Rmin (y c1) (y c2)) (Rmax (y c1) (y c2)).

Definition box_mem (b : Box) (p : Point) : Prop :=
  xlo b <= x p <= xhi b /\ ylo b <= y p <= yhi b.

Definition box_width (b : Box) : R := xhi b - xlo b.
Definition box_height (b : Box) : R := yhi b - ylo b.
Definition box_area (b : Box) : R := box_width b * box_height b.
Definition box_perimeter (b : Box) : R := 2 * (box_width b + box_height b).
Definition box_center (b : Box) : Point :=
  mkPoint ((xlo b + xhi b) / 2) ((ylo b + yhi b) / 2).

(** A rectangle implements a box when its corners, width, centre and
    containment test are the box's. (Height, area and perimeter are
    stated separately: the code gets them wrong.) *)
Definition refines (r : Rectangle) (b : Box) : Prop :=
  bottom_left r = mkPoint (xlo b) (ylo b) /\ bottom_right r = mkPoint (xhi b) (ylo b) /\
  top_left r = mkPoint (xlo b) (yhi b) /\ top_right r = mkPoint (xhi b) (yhi b) /\
  width r = box_width b /\ center r = box_center b /\
  (forall p, contains_point r p = true <-> box_mem b p).

(** The box of well-formed lines: from line 1's ends to line 3's height. *)
Definition box_of_lines (l1 l3 : Line) : Box :=
  mkBox (x (start l1)) (x (end_ l1)) (y (start l1)) (y (end_ l3)).

(** The interface between [Rectangle.__init__] and the class method
    [from_corners], which calls it through [cls]: what a constructor
    promises about the object it builds. It keeps the four lines, and on well-formed lines the object
    implements the box of the lines. The height is not promised: the
    code's is wrong ([init_height_is_width]). *)
Class RectangleCtor (mk : Line -> Line -> Line -> Line -> Rectangle) : Prop := {
  ctor_lines l1 l2 l3 l4 : lines (mk l1 l2 l3 l4) = [l1; l2; l3; l4];
  ctor_refines l1 l2 l3 l4 : wf_lines l1 l2 l3 l4 -> refines (mk l1 l2 l3 l4) (box_of_lines l1 l3)
}.

(** ** Lemmas *)

Lemma contains_point_iff (r : Rectangle) (p : Point) :
  contains_point r p = true <->
  x (bottom_left r) <= x p <= x (top_right r) /\ y (bottom_left r) <= y p <= y (top_right r).
Proof. unfold contains_point. rewrite !andb_true_iff, !Rleb_true. tauto. Qed.

Ltac rect_simpl :=
  cbn [init lines bottom_left bottom_right top_left top_right width height center
       x y start end_ xlo xhi ylo yhi box_of_corners box_width box_height box_area
       box_perimeter box_center box_mem] in *.

(** The coordinates a well-formed quadruple of lines shares. *)
Lemma wf_lines_coords (l1 l2 l3 l4 : Line) :
  wf_lines l1 l2 l3 l4 ->
  x (start l3) = x (start l1) /\ x (end_ l3) = x (end_ l1) /\
  y (end_ l1) = y (start l1) /\ y (end_ l3) = y (start l3) /\
  x (start l1) <= x (end_ l1) /\ y (start l1) <= y (end_ l3).
Proof.
  intros (H12 & H23 & H34 & H41 & Hy1 & Hy3 & Hx2 & Hx4 & Hx & Hy).
  repeat split; try lra.
  - rewrite H34, <- Hx4, H41. reflexivity.
  - rewrite <- H23, <- Hx2, <- H12. reflexivity.
Qed.

(** The constructor measures the height on line 3, the top line, which is
    as long as line 1: the height is the width. *)
Lemma wf_lines_height (l1 l2 l3 l4 : Line) :
  wf_lines l1 l2 l3 l4 -> height (init l1 l2 l3 l4) = width (init l1 l2 l3 l4).
Proof.
  intros H. apply wf_lines_coords in H as (HA & HB & Hy1 & Hy3 & _). rect_simpl.
  unfold compute_length. rewrite HA, HB, Hy1, Hy3, !Rminus_diag. reflexivity.
Qed.

(** The lines [from_corners] builds, after [min] and [max], whatever the
    class. *)
Lemma from_corners_cls_eq {T : Type} (cls : Line -> Line -> Line -> Line -> T) (c1 c2 : Point) :
  let b := box_of_corners c1 c2 in
  from_corners_cls cls c1 c2 =
  cls (mkLine (mkPoint (xlo b) (ylo b)) (mkPoint (xhi b) (ylo b)))
       (mkLine (mkPoint (xhi b) (ylo b)) (mkPoint (xhi b) (yhi b)))
       (mkLine (mkPoint (xlo b) (yhi b)) (mkPoint (xhi b) (yhi b)))
       (mkLine (mkPoint (xlo b) (ylo b)) (mkPoint (xlo b) (yhi b))).
Proof. unfold from_corners_cls. rect_simpl. autorewrite with pyreal. reflexivity. Qed.

Lemma from_corners_eq (c1 c2 : Point) :
  let b := box_of_corners c1 c2 in
  from_corners c1 c2 =
  init (mkLine (mkPoint (xlo b) (ylo b)) (mkPoint (xhi b) (ylo b)))
       (mkLine (mkPoint (xhi b) (ylo b)) (mkPoint (xhi b) (yhi b)))
       (mkLine (mkPoint (xlo b) (yhi b)) (mkPoint (xhi b) (yhi b)))
       (mkLine (mkPoint (xlo b) (ylo b)) (mkPoint (xlo b) (yhi b))).
Proof. apply from_corners_cls_eq. Qed.

Lemma box_of_corners_wf (c1 c2 : Point) :
  let b := box_of_corners c1 c2 in xlo b <= xhi b /\ ylo b <= yhi b.
Proof. rect_simpl. split; auto with geo. Qed.

Lemma from_corners_wf_lines (c1 c2 : Point) :
  let b := box_of_corners c1 c2 in
  wf_lines (mkLine (mkPoint (xlo b) (ylo b)) (mkPoint (xhi b) (ylo b)))
           (mkLine (mkPoint (xhi b) (ylo b)) (mkPoint (xhi b) (yhi b)))
           (mkLine (mkPoint (xlo b) (yhi b)) (mkPoint (xhi b) (yhi b)))
           (mkLine (mkPoint (xlo b) (ylo b)) (mkPoint (xlo b) (yhi b))).
Proof.
  intros b. pose proof (box_of_corners_wf c1 c2) as [Hx Hy].
  unfold wf_lines. rect_simpl. repeat split; assumption.
Qed.

Lemma box_width_abs (c1 c2 : Point) : box_width (box_of_corners c1 c2) = Rabs (x c1 - x c2).
Proof. apply Rmax_minus_Rmin. Qed.

Lemma box_height_abs (c1 c2 : Point) : box_height (box_of_corners c1 c2) = Rabs (y c1 - y c2).
Proof. apply Rmax_minus_Rmin. Qed.

Lemma from_corners_width (c1 c2 : Point) :
  width (from_corners c1 c2) = box_width (box_of_corners c1 c2).
Proof.
  rewrite from_corners_eq, box_width_abs. rect_simpl. autorewrite with pyreal.
  rewrite Rmax_minus_Rmin. apply Rabs_Rabsolu.
Qed.

Lemma from_corners_height (c1 c2 : Point) :
  height (from_corners c1 c2) = box_width (box_of_corners c1 c2).
Proof.
  rewrite from_corners_eq, wf_lines_height by apply from_corners_wf_lines.
  rewrite <- from_corners_eq. apply from_corners_width.
Qed.

Lemma from_corners_corners (c1 c2 : Point) :
  let b := box_of_corners c1 c2 in
  bottom_left (from_corners c1 c2) = mkPoint (xlo b) (ylo b) /\
  top_right (from_corners c1 c2) = mkPoint (xhi b) (yhi b).
Proof. rewrite from_corners_eq. split; reflexivity. Qed.

Lemma from_corners_box (c1 c2 c3 c4 : Point) :
  box_of_corners c1 c2 = box_of_corners c3 c4 -> from_corners c1 c2 = from_corners c3 c4.
Proof. intros H. rewrite !from_corners_eq. cbv zeta. now rewrite H. Qed.

(** On well-formed lines the constructor implements the box of the lines. *)
Lemma init_refines (l1 l2 l3 l4 : Line) :
  wf_lines l1 l2 l3 l4 -> refines (init l1 l2 l3 l4) (box_of_lines l1 l3).
Proof.
  intros H. pose proof (wf_lines_coords _ _ _ _ H) as (HA & HB & Hy1 & Hy3 & Hx & _).
  destruct l1 as [[a b] [c d]]. cbn [x y start end_] in *. subst d.
  unfold refines, box_of_lines. rect_simpl. rewrite compute_length_horizontal, HB.
  refine (conj _ (conj _ (conj _ (conj _ (conj _ (conj _ _))))));
    try reflexivity; try (apply Point_ext; cbn [x y]; lra).
  - unfold box_width. cbn [xlo xhi]. apply Rabs_right. lra.
  - intros p. rewrite contains_point_iff. unfold box_mem. rect_simpl. rewrite HB. tauto.
Qed.

#[export] Instance init_ctor : RectangleCtor init.
Proof. split; [reflexivity | apply init_refines]. Qed.

(** [from_corners] on any class whose constructor keeps the promises of
    [RectangleCtor]: the facts below are proved against the interface. *)
Section FromCornersCls.
Context (mk : Line -> Line -> Line -> Line -> Rectangle) `{!RectangleCtor mk}.

Lemma cls_from_corners_refines (c1 c2 : Point) :
  refines (from_corners_cls mk c1 c2) (box_of_corners c1 c2).
Proof.
  rewrite from_corners_cls_eq. exact (ctor_refines _ _ _ _ (from_corners_wf_lines c1 c2)).
Qed.

Lemma cls_from_corners_lines (c1 c2 : Point) : length (lines (from_corners_cls mk c1 c2)) = 4%nat.
Proof. rewrite from_corners_cls_eq, ctor_lines. reflexivity. Qed.
End FromCornersCls.

(** ** Theorems *)

(** C7: [from_corners] keeps the rectangle invariant: it calls the
    constructor on four lines that close into an axis-aligned rectangle,
    whichever corners it is given. *)
Theorem from_corners_wf (c1 c2 : Point) :
  exists l1 l2 l3 l4, from_corners c1 c2 = init l1 l2 l3 l4 /\ wf_lines l1 l2 l3 l4.
Proof.
  do 4 eexists. split; [apply from_corners_eq | apply from_corners_wf_lines].
Qed.

(** C6: [from_corners] implements the abstract box of its two corners:
    same four corners, width, centre and containment test. *)
Theorem from_corners_refines (c1 c2 : Point) :
  refines (from_corners c1 c2) (box_of_corners c1 c2).
Proof. apply cls_from_corners_refines. exact _. Qed.

(** C1: whatever lines it is given, as long as they close into an
    axis-aligned rectangle, the constructor sets [height] to the length of
    the top line, which is the width. *)
Theorem init_height_is_width (l1 l2 l3 l4 : Line) :
  wf_lines l1 l2 l3 l4 -> height (init l1 l2 l3 l4) = width (init l1 l2 l3 l4).
Proof. apply wf_lines_height. Qed.

Lemma init_height_is_width_witness :
  let l1 := mkLine (mkPoint 0 0) (mkPoint 4 0) in
  let l2 := mkLine (mkPoint 4 0) (mkPoint 4 3) in
  let l3 := mkLine (mkPoint 0 3) (mkPoint 4 3) in
  let l4 := mkLine (mkPoint 0 0) (mkPoint 0 3) in
  height (init l1 l2 l3 l4) = width (init l1 l2 l3 l4).
Proof.
  intros l1 l2 l3 l4. apply init_height_is_width.
  unfold wf_lines, l1, l2, l3, l4. rect_simpl. repeat split; lra.
Defined.

(** C2: the area of [from_corners] is the area of its box exactly when the
    box is a square or has zero width: otherwise the height is wrong. *)
Theorem from_corners_area_iff (c1 c2 : Point) :
  compute_area (from_corners c1 c2) = box_area (box_of_corners c1 c2) <->
  Rabs (x c1 - x c2) = 0 \/ Rabs (x c1 - x c2) = Rabs (y c1 - y c2).
Proof.
  unfold compute_area, box_area.
  rewrite from_corners_width, from_corners_height, box_width_abs, box_height_abs.
  split.
  - intros H. assert (E : Rabs (x c1 - x c2) * (Rabs (x c1 - x c2) - Rabs (y c1 - y c2)) = 0)
      by lra.
    apply Rmult_integral in E. lra.
  - intros [-> | ->]; ring.
Qed.

(** C24: the perimeter of [from_corners] is the perimeter of its box
    exactly when the box is a square. *)
Theorem from_corners_perimeter_iff (c1 c2 : Point) :
  compute_perimeter (from_corners c1 c2) = box_perimeter (box_of_corners c1 c2) <->
  Rabs (x c1 - x c2) = Rabs (y c1 - y c2).
Proof.
  unfold compute_perimeter, box_perimeter.
  rewrite from_corners_width, from_corners_height, box_width_abs, box_height_abs.
  lra.
Qed.

(** C25: [from_corners] does not depend on which two opposite corners it
    is given, nor on their order: the four calls below build the same
    rectangle. *)
Theorem from_corners_opposite (c1 c2 : Point) :
  from_corners c2 c1 = from_corners c1 c2 /\
  from_corners (mkPoint (x c1) (y c2)) (mkPoint (x c2) (y c1)) = from_corners c1 c2.
Proof.
  split; apply from_corners_box; unfold box_of_corners; rect_simpl;
    rewrite ?(Rmin_comm (x c2)), ?(Rmax_comm (x c2)), ?(Rmin_comm (y c2)), ?(Rmax_comm (y c2));
    reflexivity.
Qed.

(** the centre of a rectangle built from well-formed lines lies inside
    it. *)
Theorem init_contains_center (l1 l2 l3 l4 : Line) :
  wf_lines l1 l2 l3 l4 -> contains_point (init l1 l2 l3 l4) (center (init l1 l2 l3 l4)) = true.
Proof.
  intros H. apply wf_lines_coords in H as (_ & HB & _ & _ & Hx & Hy).
  apply contains_point_iff. rect_simpl. rewrite HB. lra.
Qed.

End Rectangle.
