(* ===== verification/Square.v ===== *)
(** * [Square] of [src/classLine.py] (lines 108-133)

    [Module Square] models the subclass. A square object has the fields of
    a rectangle: its constructor builds four lines from a corner and a
    side and calls [Rectangle.__init__], so [init] returns a
    [Rectangle.Rectangle]. The class methods [from_center_cls] and
    [from_corners_cls] compute a corner and a side and call [cls];
    [from_center] and [from_corners] call them on [Square] ([init]).
    The theorems show that a square of nonnegative side is the rectangle
    [Rectangle.from_corners] of its diagonal, that its sides are equal,
    that [from_center] centres it, that [from_corners] keeps the smaller
    side and does not depend on the order or the diagonal of its
    corners, and what a negative side does.
    [square_repr] models the overriding [__repr__]. *)

From Stdlib Require Import String Bool Reals Lra List.
From S2P Require Import Prelude Point Line Rectangle.
Import ListNotations.
Local Open Scope R_scope.

Module Square.

(** [Square.__init__(bottom_left, side_length)]: the bottom, right, top and
    left lines of the square, then [super().__init__]. *)
Definition init (bottom_left : Point) (side_length : R) : Rectangle.Rectangle :=
  let line1 := mkLine bottom_left
                 (mkPoint (x bottom_left + side_length) (y bottom_left)) in
  let line2 := mkLine (mkPoint (x bottom_left + side_length) (y bottom_left))
                 (mkPoint (x bottom_left + side_length) (y bottom_left + side_length)) in
  let line3 := mkLine (mkPoint (x bottom_left) (y bottom_left + side_length))
                 (mkPoint (x bottom_left + side_length) (y bottom_left + side_length)) in
  let line4 := mkLine bottom_left
                 (mkPoint (x bottom_left) (y bottom_left + side_length)) in
  Rectangle.init line1 line2 line3 line4.

(** The class method [Square.from_center(cls, center, side_length)]: the
    bottom-left corner, then [cls(bottom_left, side_length)]. *)
Definition from_center_cls {T : Type} (cls : Point -> R -> T) (center : Point) (side_length : R) : T :=
  let bottom_left := mkPoint (x center - side_length / 2) (y center - side_length / 2) in
  cls bottom_left side_length.

(** [Square.from_center(center, side_length)]: called on [Square]. *)
Definition from_center (center : Point) (side_length : R) : Rectangle.Rectangle :=
  from_center_cls init center side_length.

(** The class method [Square.from_corners(cls, corner1, corner2)]: the
    side is [min(abs(dx), abs(dy))], the corner is the componentwise
    [min]. *)
Definition from_corners_cls {T : Type} (cls : Point -> R -> T) (corner1 corner2 : Point) : T :=
  let side_length := py_min (Rabs (x corner1 - x corner2)) (Rabs (y corner1 - y corner2)) in
  let bottom_left := mkPoint (py_min (x corner1) (x corner2)) (py_min (y corner1) (y corner2)) in
  cls bottom_left side_length.

(** [Square.from_corners(corner1, corner2)]: called on [Square]. *)
Definition from_corners (corner1 corner2 : Point) : Rectangle.Rectangle :=
  from_corners_cls init corner1 corner2.

Section Repr.
Context (float_repr : R -> string).

(** [Square.__repr__], which overrides [Rectangle.__repr__]. *)
Definition square_repr (r : Rectangle.Rectangle) : string :=
  ("Square(lines=" ++ py_list_repr (line_repr float_repr) (Rectangle.lines r)
   ++ ", center=" ++ point_repr float_repr (Rectangle.center r)
   ++ ", side=" ++ float_repr (Rectangle.width r) ++ ")")%string.
End Repr.

(** ** Lemmas *)

Ltac sq_simpl :=
  cbn [Rectangle.init Rectangle.lines Rectangle.bottom_left Rectangle.bottom_right
       Rectangle.top_left Rectangle.top_right Rectangle.width Rectangle.height
       Rectangle.center x y start end_] in *.

Lemma init_width (bl : Point) (s : R) : Rectangle.width (init bl s) = Rabs s.
Proof.
  destruct bl as [a b]. unfold init. sq_simpl. autorewrite with pyreal. f_equal. ring.
Qed.

Lemma init_height (bl : Point) (s : R) : Rectangle.height (init bl s) = Rabs s.
Proof.
  destruct bl as [a b]. unfold init. sq_simpl. autorewrite with pyreal. f_equal. ring.
Qed.

Lemma init_corners (bl : Point) (s : R) :
  Rectangle.bottom_left (init bl s) = bl /\
  Rectangle.top_right (init bl s) = mkPoint (x bl + s) (y bl + s).
Proof. split; reflexivity. Qed.

(** ** Theorems *)

(** C18: a square of nonnegative side is the rectangle that
    [Rectangle.from_corners] builds on its diagonal: same lines, corners,
    width, height and centre. *)
Theorem init_refines_from_corners (bl : Point) (s : R) :
  0 <= s -> init bl s = Rectangle.from_corners bl (mkPoint (x bl + s) (y bl + s)).
Proof.
  intros Hs. destruct bl as [a b]. unfold init, Rectangle.from_corners, Rectangle.from_corners_cls. sq_simpl.
  autorewrite with pyreal.
  rewrite (Rmin_left a), (Rmax_right a), (Rmin_left b), (Rmax_right b) by lra.
  reflexivity.
Qed.

Lemma init_refines_from_corners_witness :
  init (mkPoint 1 2) 3 = Rectangle.from_corners (mkPoint 1 2) (mkPoint (1 + 3) (2 + 3)).
Proof. apply (init_refines_from_corners (mkPoint 1 2) 3). lra. Defined.

(** C19: every square has equal sides: width and height are both the
    absolute value of the side length, its area is the side squared and
    its perimeter four times the absolute side. *)
Theorem init_dimensions (bl : Point) (s : R) :
  Rectangle.width (init bl s) = Rabs s /\ Rectangle.height (init bl s) = Rabs s /\
  Rectangle.compute_area (init bl s) = s ^ 2 /\
  Rectangle.compute_perimeter (init bl s) = 4 * Rabs s.
Proof.
  unfold Rectangle.compute_area, Rectangle.compute_perimeter.
  rewrite init_width, init_height.
  repeat split; [| ring].
  rewrite <- Rabs_mult. unfold Rabs. destruct (Rcase_abs (s * s)); nra.
Qed.

(** C20: with a negative side the constructor's "bottom-left" corner is the
    top-right one, and the square contains no point at all. *)
Theorem init_negative_side_empty (bl p : Point) (s : R) :
  s < 0 -> Rectangle.contains_point (init bl s) p = false.
Proof.
  intros Hs. destruct (Rectangle.contains_point (init bl s) p) eqn:E; [| reflexivity].
  apply Rectangle.contains_point_iff in E. destruct (init_corners bl s) as [H1 H2].
  rewrite H1, H2 in E. cbn [x y] in E. lra.
Qed.

Lemma init_negative_side_empty_witness :
  Rectangle.contains_point (init (mkPoint 0 0) (-2)) (mkPoint (-1) (-1)) = false.
Proof. apply init_negative_side_empty. lra. Defined.

(** C21: [from_center] centres the square on the given point, whatever the
    side. *)
Theorem from_center_center (c : Point) (s : R) :
  Rectangle.center (from_center c s) = c.
Proof.
  destruct c as [a b]. unfold from_center, from_center_cls, init. sq_simpl.
  f_equal; field.
Qed.

(** C22: [from_corners] builds a square whose side is the smaller of the
    two dimensions of its corners: the larger one is dropped. *)
Theorem from_corners_side (c1 c2 : Point) :
  Rectangle.width (from_corners c1 c2) = Rmin (Rabs (x c1 - x c2)) (Rabs (y c1 - y c2)) /\
  Rectangle.height (from_corners c1 c2) = Rmin (Rabs (x c1 - x c2)) (Rabs (y c1 - y c2)).
Proof.
  unfold from_corners, from_corners_cls. rewrite init_width, init_height, py_min_Rmin.
  assert (0 <= Rmin (Rabs (x c1 - x c2)) (Rabs (y c1 - y c2))).
  { auto with geo. }
  rewrite Rabs_right by lra. split; reflexivity.
Qed.

(** C23: [from_corners] does not depend on which two opposite corners it
    is given, nor on their order: the four calls below build the same
    square ([abs] makes the side symmetric, [min] the corner). *)
Theorem from_corners_symmetric (c1 c2 : Point) :
  from_corners c2 c1 = from_corners c1 c2 /\
  from_corners (mkPoint (x c1) (y c2)) (mkPoint (x c2) (y c1)) = from_corners c1 c2.
Proof.
  unfold from_corners, from_corners_cls; cbn [x y]. rewrite !py_min_Rmin.
  rewrite (Rabs_minus_sym (x c2)), (Rabs_minus_sym (y c2)), (Rmin_comm (x c2)), (Rmin_comm (y c2)).
  split; reflexivity.
Qed.

End Square.
