(* ===== verification/Shape.v ===== *)
(** * Shapes as Python objects: the class tag of [src/classLine.py]

    [Square] inherits from [Rectangle]: both classes' objects carry the
    attributes [Rectangle.__init__] sets ([Rectangle.Rectangle]), and they
    differ only in the class, which decides the [__repr__] used.
    [Module Shape] makes the class explicit, as the spec's design notes
    suggest ([Shape = Rectangle | Square]): a constructor of [Shape] per
    class, one definition per way the program builds an object (the two
    class constructors and the three class methods), and method lookup:
    [compute_area], [compute_perimeter] and [contains_point] are
    [Rectangle]'s for both classes, [__repr__] is the class's own. The
    class methods are [Rectangle.from_corners_cls] and
    [Square.from_center_cls], [Square.from_corners_cls], called with the
    class's constructor as [cls]. This file holds definitions only: the
    properties of the objects are those of [Rectangle.v] and [Square.v]. *)

From Stdlib Require Import String Bool Reals Lra List.
From S2P Require Import Prelude Point Line Rectangle Square.
Import ListNotations.
Local Open Scope R_scope.

Module Shape.

Inductive cls : Type := RectangleCls | SquareCls.

(** An object of class [Rectangle] or [Square], with its attributes. *)
Inductive Shape : Type :=
| RectangleObj (r : Rectangle.Rectangle)
| SquareObj (r : Rectangle.Rectangle).

Definition fields (s : Shape) : Rectangle.Rectangle :=
  match s with RectangleObj r | SquareObj r => r end.

Definition class_of (s : Shape) : cls :=
  match s with RectangleObj _ => RectangleCls | SquareObj _ => SquareCls end.

(** [Rectangle(line1, line2, line3, line4)]. *)
Definition rectangle (l1 l2 l3 l4 : Line) : Shape := RectangleObj (Rectangle.init l1 l2 l3 l4).

(** [Rectangle.from_corners(c1, c2)]: [cls] is [Rectangle]. *)
Definition rectangle_from_corners (c1 c2 : Point) : Shape :=
  Rectangle.from_corners_cls rectangle c1 c2.

(** [Square(bottom_left, side_length)]. *)
Definition square (bl : Point) (side : R) : Shape := SquareObj (Square.init bl side).

(** [Square.from_center(center, side_length)]: [cls] is [Square]. *)
Definition square_from_center (c : Point) (side : R) : Shape :=
  Square.from_center_cls square c side.

(** [Square.from_corners(c1, c2)]: [cls] is [Square]. *)
Definition square_from_corners (c1 c2 : Point) : Shape :=
  Square.from_corners_cls square c1 c2.

(** Method lookup: [Square] inherits these three from [Rectangle]. *)
Definition compute_area (s : Shape) : R := Rectangle.compute_area (fields s).
Definition compute_perimeter (s : Shape) : R := Rectangle.compute_perimeter (fields s).
Definition contains_point (s : Shape) (p : Point) : bool :=
  Rectangle.contains_point (fields s) p.

(** [repr(s)]: [Square.__repr__] overrides [Rectangle.__repr__]. *)
Definition repr (float_repr : R -> string) (s : Shape) : string :=
  match s with
  | RectangleObj r => Rectangle.rect_repr float_repr r
  | SquareObj r => Square.square_repr float_repr r
  end.

End Shape.
