(* ===== verification/Restaurant.v ===== *)
(** * The order calculator of [src/RestaurantScenario.py]

    [Module Restaurant] models the script: the class [MenuItem] and its
    three subclasses as one inductive type [Item] whose constructors carry
    the base fields and the subclass's flag, [total_price] with the
    subclasses' overrides (dynamic dispatch is the [match]), the class
    [Order] as a record of its item list, [add_item] as state passing,
    [calculate_total] with its 5% discount above 100, and the two orders
    the script builds. Prices are exact rationals ([Q]), so the totals of
    the sample orders compute by [vm_compute]. A customer adding items
    one after the other is [fold_left add_item], as the script does.
    Printing ([__repr__], [show_order]) is in [Receipt.v]. *)

From Stdlib Require Import String QArith ZArith List Lia.
From Stdlib Require Import Morphisms Setoid Lqa.
Import ListNotations.
Local Open Scope Q_scope.

Module Restaurant.

(** The fields [MenuItem.__init__] sets. *)
Record MenuItem : Type := mkMenuItem { name : string; price : Q; quantity : Z }.

(** An instance of [MenuItem] or of one of its subclasses, with the flag
    the subclass's constructor adds. *)
Inductive Item : Type :=
| Base (m : MenuItem)
| Beverage (m : MenuItem) (is_alcoholic : bool)
| Appetizer (m : MenuItem) (with_sauce : bool)
| MainCourse (m : MenuItem) (is_vegetarian : bool).

Definition base_of (i : Item) : MenuItem :=
  match i with
  | Base m | Beverage m _ | Appetizer m _ | MainCourse m _ => m
  end.

(** [MenuItem.total_price]: [self.price * self.quantity]. *)
Definition menu_total_price (m : MenuItem) : Q := price m * inject_Z (quantity m).

(** [total_price] as dispatched on the class: [Beverage] takes 10% off
    five or more alcoholic drinks, [MainCourse] 15% off a vegetarian dish,
    [Appetizer] inherits the base method. *)
Definition total_price (i : Item) : Q :=
  match i with
  | Base m => menu_total_price m
  | Beverage m is_alcoholic =>
      let base_price := menu_total_price m in
      if is_alcoholic && (5 <=? quantity m)%Z then base_price * 0.9 else base_price
  | Appetizer m _ => menu_total_price m
  | MainCourse m is_vegetarian =>
      let base_price := menu_total_price m in
      if is_vegetarian then base_price * 0.85 else base_price
  end.

(** The fields [Order.__init__] sets: an empty list of items. *)
Record Order : Type := mkOrder { items : list Item }.

Definition new_order : Order := mkOrder [].

(** [Order.add_item]: [self.items.append(item)]. *)
Definition add_item (o : Order) (item : Item) : Order := mkOrder (items o ++ [item]).

(** [Order.calculate_total]: sum the items' totals from [0], then take 5%
    off when the sum exceeds 100 ([total > 100]). *)
Definition calculate_total (o : Order) : Q :=
  let total := fold_left (fun total item => total + total_price item) (items o) 0 in
  if negb (Qle_bool total 100) then total * 0.95 else total.

(** The order the script builds at module level (lines 80-91). *)
Definition script_order : Order :=
  fold_left add_item
    [ Beverage (mkMenuItem "Coca-Cola" 2.5 3) false;
      Beverage (mkMenuItem "Red Wine" 10.0 6) true;
      Appetizer (mkMenuItem "Spring Rolls" 5.0 2) true;
      Appetizer (mkMenuItem "Garlic Bread" 4.0 1) false;
      MainCourse (mkMenuItem "Grilled Chicken" 15.0 1) false;
      MainCourse (mkMenuItem "Vegetarian Lasagna" 12.0 2) true;
      MainCourse (mkMenuItem "Steak" 22.0 1) false;
      Beverage (mkMenuItem "Orange Juice" 3.5 2) false;
      Appetizer (mkMenuItem "Stuffed Mushrooms" 6.5 1) false;
      MainCourse (mkMenuItem "Fish and Chips" 14.0 1) false ]
    new_order.

(** The order of the [__main__] block (lines 99-106). *)
Definition main_order : Order :=
  fold_left add_item
    [ MainCourse (mkMenuItem "Grilled Chicken" 15.00 1) false;
      MainCourse (mkMenuItem "Vegetarian Lasagna" 10.20 1) true;
      Appetizer (mkMenuItem "Spring Rolls" 5.00 1) true;
      Beverage (mkMenuItem "Coca-Cola" 2.50 1) false;
      Beverage (mkMenuItem "Red Wine" 9.00 1) true ]
    new_order.

(** The sum before the discount, and the discount, as proof devices. *)
Definition subtotal (l : list Item) : Q := fold_right (fun i t => total_price i + t) 0 l.

Definition discount (total : Q) : Q :=
  if negb (Qle_bool total 100) then total * 0.95 else total.

(** The sum of the list prices [price * quantity] of items, before any
    discount. *)
Definition list_price (l : list Item) : Q :=
  fold_right (fun i t => menu_total_price (base_of i) + t) 0 l.

(** A menu item as the script builds them: a nonnegative price and
    quantity. *)
Definition valid_item (i : Item) : bool :=
  Qle_bool 0 (price (base_of i)) && (0 <=? quantity (base_of i))%Z.

(** The orders a customer can reach from a new order by adding valid
    items, one [add_item] at a time. *)
Inductive reachable : Order -> Prop :=
| reachable_new : reachable new_order
| reachable_add (o : Order) (i : Item) :
    reachable o -> valid_item i = true -> reachable (add_item o i).

(** ** Lemmas *)

Lemma Qle_bool_false (a b : Q) : Qle_bool a b = false <-> b < a.
Proof.
  split; intros H.
  - apply Qnot_le_lt. intros Hle. apply Qle_bool_iff in Hle. congruence.
  - destruct (Qle_bool a b) eqn:E; [apply Qle_bool_iff in E; lra | reflexivity].
Qed.

(** Case analysis on the discount test. *)
Ltac discount_cases t :=
  destruct (Qle_bool t 100) eqn:?; cbn [negb];
  repeat match goal with
    | H : Qle_bool _ _ = true |- _ => apply Qle_bool_iff in H
    | H : Qle_bool _ _ = false |- _ => apply Qle_bool_false in H
    end.

#[export] Instance discount_proper : Proper (Qeq ==> Qeq) discount.
Proof.
  intros a b Hab. unfold discount.
  discount_cases a; discount_cases b; rewrite ?Hab; reflexivity || lra.
Qed.

Lemma fold_total_subtotal (l : list Item) (a : Q) :
  fold_left (fun total item => total + total_price item) l a == a + subtotal l.
Proof.
  revert a. induction l as [| i l IH]; intros a; cbn [fold_left subtotal fold_right].
  - ring.
  - rewrite IH. unfold subtotal. ring.
Qed.

Lemma calculate_total_discount (o : Order) :
  calculate_total o == discount (subtotal (items o)).
Proof.
  unfold calculate_total. fold (discount (fold_left (fun total item => total + total_price item) (items o) 0)).
  rewrite fold_total_subtotal. apply discount_proper. ring.
Qed.

Lemma subtotal_nonneg (l : list Item) :
  Forall (fun i => 0 <= total_price i) l -> 0 <= subtotal l.
Proof.
  unfold subtotal. induction 1; cbn [fold_right]; [lra |].
  fold (subtotal l) in *. lra.
Qed.

Lemma items_add_items (o : Order) (l : list Item) :
  items (fold_left add_item l o) = items o ++ l.
Proof.
  revert o. induction l as [| i l IH]; intros o; cbn [fold_left].
  - now rewrite app_nil_r.
  - rewrite IH. cbn [items add_item]. now rewrite <- app_assoc.
Qed.

Lemma subtotal_app (l1 l2 : list Item) : subtotal (l1 ++ l2) == subtotal l1 + subtotal l2.
Proof.
  unfold subtotal. induction l1 as [| i l1 IH]; cbn [app fold_right].
  - ring.
  - rewrite IH. ring.
Qed.

(** Items that each cost at least [eps] sum to at least [j * eps]. *)
Lemma subtotal_stream_lower (f : nat -> Item) (eps : Q) (j : nat) :
  (forall n, eps <= total_price (f n)) ->
  inject_Z (Z.of_nat j) * eps <= subtotal (map f (seq 0 j)).
Proof.
  intros Hf. induction j as [| j IH].
  - cbn [seq map]. unfold subtotal; cbn [fold_right]. change (inject_Z (Z.of_nat 0)) with 0. lra.
  - rewrite seq_S, map_app, subtotal_app.
    change (subtotal (map f [(0 + j)%nat])) with (total_price (f (0 + j)%nat) + 0).
    rewrite Nat2Z.inj_succ, <- Z.add_1_r, inject_Z_plus. change (inject_Z 1) with 1.
    specialize (Hf (0 + j)%nat). lra.
Qed.

(** Above [100] the discount is taken. *)
Lemma discount_above (t : Q) : 100 < t -> discount t == 0.95 * t.
Proof. intros Ht. unfold discount. discount_cases t; lra. Qed.

(** Up to [100] nothing is taken off. *)
Lemma discount_below (t : Q) : t <= 100 -> discount t == t.
Proof. intros Ht. unfold discount. discount_cases t; lra. Qed.

Lemma subtotal_add_item (o : Order) (i : Item) :
  subtotal (items (add_item o i)) == subtotal (items o) + total_price i.
Proof.
  cbn [items add_item]. rewrite subtotal_app. unfold subtotal at 2. cbn [fold_right]. ring.
Qed.

Lemma discount_bounds (t : Q) : 0 <= t -> 0.95 * t <= discount t <= t.
Proof.
  intros Ht. unfold discount. discount_cases t; lra.
Qed.

(** The items of a reachable order are valid (rule induction). *)
Lemma reachable_valid (o : Order) :
  reachable o -> Forall (fun i => valid_item i = true) (items o).
Proof.
  induction 1 as [| o i _ IH Hi]; cbn [items new_order add_item]; [constructor |].
  apply Forall_app. split; [exact IH | now constructor].
Qed.

Lemma reachable_add_items (o : Order) (l : list Item) :
  reachable o -> Forall (fun i => valid_item i = true) l -> reachable (fold_left add_item l o).
Proof.
  intros Ho Hl. revert o Ho. induction Hl as [| i l Hi _ IH]; intros o Ho; cbn [fold_left];
    [exact Ho | apply IH; now constructor].
Qed.

Lemma valid_item_list_price (i : Item) :
  valid_item i = true -> 0 <= menu_total_price (base_of i).
Proof.
  unfold valid_item, menu_total_price. rewrite andb_true_iff, Qle_bool_iff, Z.leb_le.
  intros [Hp Hq]. apply Qmult_le_0_compat; [exact Hp |].
  change 0 with (inject_Z 0). now rewrite <- Zle_Qle.
Qed.

Lemma total_price_list_bounds (i : Item) :
  0 <= menu_total_price (base_of i) ->
  0.85 * menu_total_price (base_of i) <= total_price i <= menu_total_price (base_of i).
Proof.
  intros H. destruct i as [m | m b | m b | m b]; cbn [base_of total_price] in *;
    [| destruct (b && (5 <=? quantity m)%Z) | | destruct b]; lra.
Qed.

(** The items' totals lie between 85% of their list price and it. *)
Lemma subtotal_list_price (l : list Item) :
  Forall (fun i => valid_item i = true) l ->
  0 <= list_price l /\ 0.85 * list_price l <= subtotal l <= list_price l.
Proof.
  unfold subtotal, list_price. induction 1 as [| i l Hi _ IH]; cbn [fold_right]; [lra |].
  pose proof (valid_item_list_price i Hi) as H0. pose proof (total_price_list_bounds i H0). lra.
Qed.

(** ** Theorems *)

(** C27: when no item has a negative total, the order's total is between
    95% of the sum of the items' totals and that sum, and nonnegative. *)
Theorem calculate_total_bounds (o : Order) :
  Forall (fun i => 0 <= total_price i) (items o) ->
  0 <= calculate_total o /\
  0.95 * subtotal (items o) <= calculate_total o <= subtotal (items o).
Proof.
  intros Hnn. pose proof (subtotal_nonneg _ Hnn) as H0.
  pose proof (discount_bounds _ H0) as Hb. rewrite calculate_total_discount. lra.
Qed.

Lemma calculate_total_bounds_witness :
  0 <= calculate_total main_order /\
  0.95 * subtotal (items main_order) <= calculate_total main_order <= subtotal (items main_order).
Proof.
  apply calculate_total_bounds. repeat constructor; apply Qle_bool_iff; vm_compute; reflexivity.
Defined.


(** C31: the beverage discount starts at five drinks: an alcoholic
    beverage of positive price is discounted exactly when its quantity is
    at least 5. *)
Theorem beverage_discount_threshold (m : MenuItem) :
  0 < menu_total_price m ->
  (total_price (Beverage m true) < menu_total_price m <-> (5 <= quantity m)%Z).
Proof.
  intros H. cbn [total_price andb]. destruct (Z.leb_spec 5 (quantity m)); split; intros; lra || lia.
Qed.

Lemma beverage_discount_threshold_witness :
  total_price (Beverage (mkMenuItem "Red Wine" 10.0 5) true) <
    menu_total_price (mkMenuItem "Red Wine" 10.0 5).
Proof.
  apply (beverage_discount_threshold (mkMenuItem "Red Wine" 10.0 5)).
  - apply Qlt_alt. vm_compute. reflexivity.
  - cbn. lia.
Defined.

(** C14: liveness of the discount: whatever order a customer starts
    from (with no item of negative total) and whatever items they keep
    adding, as long as each costs at least some [eps > 0], there comes a
    point after which every order is above 100 and charged 95% of its
    sum. *)
Theorem discount_eventually (o : Order) (f : nat -> Item) (eps : Q) :
  0 < eps ->
  Forall (fun i => 0 <= total_price i) (items o) ->
  (forall n, eps <= total_price (f n)) ->
  exists k : nat, forall j : nat, (k <= j)%nat ->
    let o' := fold_left add_item (map f (seq 0 j)) o in
    100 < subtotal (items o') /\ calculate_total o' == 0.95 * subtotal (items o').
Proof.
  intros Heps Ho Hf. destruct (Qarchimedean (100 / eps)) as [p Hp].
  exists (Pos.to_nat p). intros j Hj o'.
  assert (Hsum : 100 < subtotal (items o')).
  { unfold o'. rewrite items_add_items, subtotal_app.
    pose proof (subtotal_nonneg _ Ho). pose proof (subtotal_stream_lower f eps j Hf).
    assert (Hpj : inject_Z (Z.pos p) <= inject_Z (Z.of_nat j)).
    { rewrite <- Zle_Qle. lia. }
    assert (100 < inject_Z (Z.pos p) * eps).
    { apply (Qmult_lt_r _ _ eps Heps) in Hp.
      assert (E : 100 / eps * eps == 100) by (field; intros E; rewrite E in Heps; discriminate).
      change (Z.pos p # 1) with (inject_Z (Z.pos p)) in Hp. lra. }
    pose proof (Qmult_le_compat_r _ _ eps Hpj ltac:(lra)). lra. }
  split; [exact Hsum |]. rewrite calculate_total_discount. now apply discount_above.
Qed.

Lemma discount_eventually_witness :
  exists k : nat, forall j : nat, (k <= j)%nat ->
    let o' := fold_left add_item (map (fun _ => Base (mkMenuItem "Coca-Cola" 2.50 1)) (seq 0 j)) new_order in
    100 < subtotal (items o') /\ calculate_total o' == 0.95 * subtotal (items o').
Proof.
  apply (discount_eventually new_order (fun _ => Base (mkMenuItem "Coca-Cola" 2.50 1)) 2.50).
  - apply Qlt_alt. vm_compute. reflexivity.
  - constructor.
  - intros n. apply Qle_bool_iff. vm_compute. reflexivity.
Defined.

(** C30: an invariant of the order as a state machine: every order a
    customer reaches by adding valid menu items is charged at most its
    list price (the sum of [price * quantity]) and at least 80.75% of it,
    the 15% off a vegetarian dish followed by the 5% off the order. *)
Theorem reachable_total_bounds (o : Order) :
  reachable o ->
  0.8075 * list_price (items o) <= calculate_total o <= list_price (items o).
Proof.
  intros Ho. apply reachable_valid in Ho. destruct (subtotal_list_price _ Ho) as (H0 & Hlo & Hhi).
  assert (Hs : 0 <= subtotal (items o)) by lra.
  pose proof (discount_bounds _ Hs). rewrite calculate_total_discount. lra.
Qed.

Lemma reachable_total_bounds_witness :
  0.8075 * list_price (items main_order) <= calculate_total main_order <= list_price (items main_order).
Proof.
  apply reachable_total_bounds. apply reachable_add_items; [constructor |].
  repeat constructor.
Defined.

(** C29: adding an item of nonnegative price lowers the bill by at most 5,
    and by as close to 5 as one likes: an order at exactly 100 pays 100,
    and one more item of price [d] brings it to [95 + 0.95 d]. *)
Theorem calculate_total_add_drop :
  (forall (o : Order) (i : Item), 0 <= total_price i ->
     calculate_total o - 5 <= calculate_total (add_item o i)) /\
  (forall eps : Q, 0 < eps -> exists (o : Order) (i : Item),
     0 <= total_price i /\ calculate_total (add_item o i) < calculate_total o - 5 + eps).
Proof.
  split.
  - intros o i Hi. rewrite !calculate_total_discount, subtotal_add_item.
    unfold discount. discount_cases (subtotal (items o));
      discount_cases (subtotal (items o) + total_price i); lra.
  - intros eps He.
    exists (add_item new_order (Base (mkMenuItem "a" 100 1))), (Base (mkMenuItem "b" (eps * (1 # 2)) 1)).
    rewrite !calculate_total_discount, subtotal_add_item.
    change (subtotal (items (add_item new_order (Base (mkMenuItem "a" 100 1))))) with (100 * 1 + 0).
    cbn [total_price]. unfold menu_total_price; cbn [price quantity]. change (inject_Z 1) with 1.
    pose proof (discount_below (100 * 1 + 0) ltac:(lra)).
    pose proof (discount_above (100 * 1 + 0 + eps * (1 # 2) * 1) ltac:(lra)). split; lra.
Qed.

End Restaurant.
