(* ===== verification/PyFormat.v ===== *)
(** * Python's printing of numbers, for the prices of [Restaurant.v]

    [str(n)] of an int and [f"{v:.2f}"] of a price. Prices are exact
    rationals in this development (see the root header), so [.2f] rounds
    the exact value to the nearest hundredth, ties to even, as CPython
    rounds the exact binary value of a float. The sign is printed when the
    value is negative, even if it rounds to zero (["-0.00"]). These are
    the runtime's functions, not the repository's: they are not mapped. *)

From Stdlib Require Import String ZArith QArith Qround DecimalString DecimalZ Qabs Lia Lqa.
Local Open Scope Q_scope.

(** [str(n)]. *)
Definition py_str_int (n : Z) : string := NilZero.string_of_int (Z.to_int n).

(** The integer nearest to [q], ties to the even one. *)
Definition round_half_even (q : Q) : Z :=
  let k := Qfloor q in
  match Qcompare (q - inject_Z k) (1 # 2) with
  | Lt => k
  | Gt => (k + 1)%Z
  | Eq => if Z.even k then k else (k + 1)%Z
  end.

(** Two decimal digits, with a leading zero below ten. *)
Definition two_digits (n : Z) : string :=
  if (n <? 10)%Z then ("0" ++ py_str_int n)%string else py_str_int n.

(** [f"{v:.2f}"]. *)
Definition format_2f (v : Q) : string :=
  let cents := Z.abs (round_half_even (v * 100)) in
  ((if Qle_bool 0 v then "" else "-") ++ py_str_int (cents / 100) ++ "."
   ++ two_digits (cents mod 100))%string.

(** ** Lemmas *)

(** [str(n)] reads back: Python's [int(str(n)) == n]. *)
Lemma py_str_int_roundtrip (n : Z) :
  option_map Z.of_int (NilZero.int_of_string (py_str_int n)) = Some n.
Proof.
  unfold py_str_int. rewrite NilZero.isi.
  - cbn. now rewrite DecimalZ.of_to.
  - intros H. pose proof (f_equal Z.of_int H) as E.
    rewrite DecimalZ.of_to in E. cbn in E. subst n. discriminate H.
  - intros H. pose proof (f_equal Z.of_int H) as E.
    rewrite DecimalZ.of_to in E. cbn in E. subst n. discriminate H.
Qed.

(** Rounding is within half a unit. *)
Lemma round_half_even_bound (q : Q) :
  Qabs (inject_Z (round_half_even q) - q) <= 1 # 2.
Proof.
  unfold round_half_even.
  pose proof (Qfloor_le q) as Hle. pose proof (Qlt_floor q) as Hlt.
  set (k := Qfloor q) in *.
  assert (Hk1 : inject_Z (k + 1) == inject_Z k + 1) by (rewrite inject_Z_plus; reflexivity).
  destruct (Qcompare_spec (q - inject_Z k) (1 # 2)) as [Heq | Hlt' | Hgt];
    [destruct (Z.even k) |  |];
    rewrite ?Hk1; apply Qabs_case; intros; lra.
Qed.
