(* ===== verification/Receipt.v ===== *)
(** * What [src/RestaurantScenario.py] prints

    [Module Receipt] models the printing half of the script: the
    [__repr__] of each menu-item class (one definition each, dispatched by
    [item_repr] as [print(item)] looks the method up), [Order.show_order]
    as the list of lines it prints, and the output of running the file,
    which prints the module-level order's summary (line 93) before the
    [__main__] block's (line 109). Numbers are printed with [PyFormat.v].
    Evaluated, [run_as_main] gives nineteen lines: the module-level
    summary (total $152.38), then the seven lines the file's closing
    comment expects (total $40.17). *)

From Stdlib Require Import String QArith ZArith List.
From S2P Require Import PyFormat Restaurant.
Import ListNotations.
Local Open Scope string_scope.

Module Receipt.
Import Restaurant.

(** [MenuItem.__repr__]: [f"{self.name} x{self.quantity} - ${self.total_price():.2f}"]. *)
Definition menu_item_repr (m : MenuItem) : string :=
  name m ++ " x" ++ py_str_int (quantity m) ++ " - $" ++ format_2f (total_price (Base m)).

(** [Beverage.__repr__]. *)
Definition beverage_repr (m : MenuItem) (is_alcoholic : bool) : string :=
  let alc := if is_alcoholic then " (Alcoholic)" else "" in
  "Beverage: " ++ name m ++ alc ++ " x" ++ py_str_int (quantity m) ++ " - $"
    ++ format_2f (total_price (Beverage m is_alcoholic)).

(** [Appetizer.__repr__]. *)
Definition appetizer_repr (m : MenuItem) (with_sauce : bool) : string :=
  let sauce := if with_sauce then " with sauce" else "" in
  "Appetizer: " ++ name m ++ sauce ++ " x" ++ py_str_int (quantity m) ++ " - $"
    ++ format_2f (total_price (Appetizer m with_sauce)).

(** [MainCourse.__repr__]. *)
Definition main_course_repr (m : MenuItem) (is_vegetarian : bool) : string :=
  let veg := if is_vegetarian then " (Vegetarian)" else "" in
  "Main Course: " ++ name m ++ veg ++ " x" ++ py_str_int (quantity m) ++ " - $"
    ++ format_2f (total_price (MainCourse m is_vegetarian)).

(** [print(item)] prints the [__repr__] of the item's class. *)
Definition item_repr (i : Item) : string :=
  match i with
  | Base m => menu_item_repr m
  | Beverage m a => beverage_repr m a
  | Appetizer m s => appetizer_repr m s
  | MainCourse m v => main_course_repr m v
  end.

(** [Order.show_order]: the lines it prints, in order. *)
Definition show_order (o : Order) : list string :=
  ["Order Summary:"] ++ map item_repr (items o)
  ++ ["Total: $" ++ format_2f (calculate_total o)].

(** Running [python RestaurantScenario.py]: the module-level
    [order.show_order()], then the [__main__] block's. *)
Definition run_as_main : list string := show_order script_order ++ show_order main_order.

End Receipt.
